(** * CCS811 gas-sensor driver (adafruit_ccs811.py): a shallow embedding

    The driver talks to the chip through an [I2CDevice]; every method is a
    short sequence of bus transactions followed by some bit arithmetic on the
    bytes that came back.  The embedding keeps that shape:

    - the I2C bus is an interface ([I2CBus]), the device behind it is
      arbitrary; every transaction is also appended to a log so that the
      traffic a method causes can be stated;
    - Python exceptions are values of [exn]; a method is a function from the
      driver object to a result and the driver object afterwards, so that the
      state a raising method leaves behind is visible;
    - Python [int] is [Z], the contents of a [bytearray] are [byte]s, read as
      numbers by [byte_val];
    - Python [float] is idealised by [R]: rounding is not modelled, but the
      exceptions of float operations ([ZeroDivisionError] of [/],
      [ValueError] of [math.log]) are raised exactly where Python raises
      them. *)

From Stdlib Require Import ZArith List String Ascii Bool Lia.
From Stdlib.Strings Require Import Byte.
From Stdlib Require Import DecimalString.
From Stdlib Require Import Reals Lra.
Import ListNotations.

Local Open Scope Z_scope.

(** ** Python values and exceptions *)

(** The exception classes the driver can end in.  [RuntimeError] carries its
    message, the others are raised by the interpreter itself. *)
Inductive exn : Type :=
| RuntimeError (msg : string)
| ZeroDivisionError
| ValueError
| TypeError.

Inductive Res (A : Type) : Type :=
| Ok (a : A)
| Raise (e : exn).
Arguments Ok {A} a.
Arguments Raise {A} e.

(** Numbers as a method may receive them: Python is dynamically typed, and
    [set_environmental_data] is handed an [int] and a [float]. *)
Inductive PyNum : Type :=
| PyInt (z : Z)
| PyFloat (x : R).

(** ** Bytes and bytearrays *)

Definition byte_val (b : byte) : Z := Z.of_N (Byte.to_N b).

(** [bytearray([...])] of a list of ints: every item must be in
    [range(0, 256)], otherwise [ValueError]. *)
Definition byte_of_int (z : Z) : option byte :=
  if (0 <=? z) && (z <? 256) then Byte.of_N (Z.to_N z) else None.

Fixpoint bytearray (l : list Z) : Res (list byte) :=
  match l with
  | [] => Ok []
  | z :: l' =>
      match byte_of_int z with
      | None => Raise ValueError
      | Some b =>
          match bytearray l' with
          | Ok bs => Ok (b :: bs)
          | Raise e => Raise e
          end
      end
  end.

(** [bytearray(n)]: n zero bytes. *)
Definition bytearray_zeros (n : nat) : list byte := repeat x00 n.

(** [buf[i]] as an int; the driver only indexes inside the buffer. *)
Definition buf_get (buf : list byte) (i : nat) : Z := byte_val (nth i buf x00).

(** [str(n)] for a non-negative int. *)
Definition str (z : Z) : string := NilZero.string_of_uint (N.to_uint (Z.to_N z)).

(** ** Control: state and exceptions *)

(** A computation over a state [S] that returns or raises; the state is kept
    in both cases, as a Python object keeps what was assigned before a
    [raise]. *)
Definition SE (S A : Type) : Type := S -> Res A * S.

Definition ret {S A : Type} (a : A) : SE S A := fun s => (Ok a, s).

Definition raise {S A : Type} (e : exn) : SE S A := fun s => (Raise e, s).

Definition bind {S A B : Type} (m : SE S A) (k : A -> SE S B) : SE S B :=
  fun s =>
    match m s with
    | (Ok a, s') => k a s'
    | (Raise e, s') => (Raise e, s')
    end.

Notation "x <- m ;; k" := (bind m (fun x => k))
  (at level 61, m at next level, right associativity).
Notation "m ;;; k" := (bind m (fun _ => k))
  (at level 61, right associativity).

(** A pure step that may raise, run inside a computation. *)
Definition of_res {S A : Type} (r : Res A) : SE S A := fun s => (r, s).

(** ** The bus *)

(** What the driver borrows: a device that accepts written bytes and
    answers reads.  [bus_writeto data stop] is one write of [data], ended by
    a stop condition or not; [bus_readfrom n] is one read of [n] bytes. *)
Class I2CBus (D : Type) : Type := {
  bus_writeto : list byte -> bool -> D -> D;
  bus_readfrom : nat -> D -> list byte * D
}.

Inductive Event : Type :=
| EvWrite (data : list byte) (stop : bool)
| EvRead (n : nat)
| EvSleep.

(** [I2CDevice]: the device together with the log of what was done to it. *)
Record I2CDevice (D : Type) : Type := mkI2C {
  dev : D;
  log : list Event
}.
Arguments mkI2C {D} dev log.
Arguments dev {D} _.
Arguments log {D} _.

Section Driver.

Context {D : Type} `{I2CBus D}.

(** [i2c.write(buf, end=e, stop=s)]: sends [buf[0:e]]. *)
Definition i2c_write (buf : list byte) (e : nat) (stop : bool)
    (i : I2CDevice D) : I2CDevice D :=
  let data := firstn e buf in
  mkI2C (bus_writeto data stop (dev i)) (log i ++ [EvWrite data stop]).

(** [i2c.write(buf)]: the whole buffer, with a stop. *)
Definition i2c_write_all (buf : list byte) (i : I2CDevice D) : I2CDevice D :=
  i2c_write buf (List.length buf) true i.

(** [fill_from start data buf]: [buf[start:]] overwritten by [data], cell by
    cell; cells the device did not deliver keep their content. *)
Fixpoint fill_from (start : nat) (data buf : list byte) : list byte :=
  match buf with
  | [] => []
  | b :: buf' =>
      match start with
      | S start' => b :: fill_from start' data buf'
      | O =>
          match data with
          | [] => b :: buf'
          | d :: data' => d :: fill_from O data' buf'
          end
      end
  end.

(** [i2c.read_into(buf, start=s)]: reads [len(buf) - s] bytes into
    [buf[s:]]. *)
Definition i2c_read_into (buf : list byte) (start : nat)
    (i : I2CDevice D) : list byte * I2CDevice D :=
  let n := (List.length buf - start)%nat in
  let '(data, d') := bus_readfrom n (dev i) in
  (fill_from start data buf, mkI2C d' (log i ++ [EvRead n])).

(** The transaction every register access of the driver starts with:
    a two-cell (or longer) buffer whose first cell is the register address,
    written without stop, then filled from cell 1 on. *)
Definition read_register (reg : byte) (len : nat)
    (i : I2CDevice D) : list byte * I2CDevice D :=
  let buf := reg :: bytearray_zeros len in
  let i1 := i2c_write buf 1 false i in
  i2c_read_into buf 1 i1.

(** ** Register descriptors (adafruit_register.i2c_bit, i2c_bits)

    The class attributes [error], [data_ready], ... are descriptors: reading
    one is a register read, assigning one is a read-modify-write. *)

Definition IO (A : Type) : Type := SE (I2CDevice D) A.

Definition io_write (buf : list byte) (e : nat) (stop : bool) : IO unit :=
  fun i => (Ok tt, i2c_write buf e stop i).

Definition io_write_all (buf : list byte) : IO unit :=
  fun i => (Ok tt, i2c_write_all buf i).

Definition io_read_register (reg : byte) (len : nat) : IO (list byte) :=
  fun i => let '(buf, i') := read_register reg len i in (Ok buf, i').

Definition io_sleep : IO unit :=
  fun i => (Ok tt, mkI2C (dev i) (log i ++ [EvSleep])).

(** [buf[1] = v] on the two-cell descriptor buffer. *)
Definition set_cell1 (buf : list byte) (v : Z) : Res (list byte) :=
  match byte_of_int v with
  | Some b => Ok (nth 0 buf x00 :: b :: skipn 2 buf)
  | None => Raise ValueError
  end.

(** [ROBit(reg, bit).__get__] and [RWBit(reg, bit).__get__]. *)
Definition Bit_get (reg : byte) (bit : Z) : IO bool :=
  buf <- io_read_register reg 1 ;;
  ret (negb (Z.land (buf_get buf 1) (Z.shiftl 1 bit) =? 0)).

(** [RWBit(reg, bit).__set__]. *)
Definition RWBit_set (reg : byte) (bit : Z) (value : bool) : IO unit :=
  let bit_mask := Z.shiftl 1 bit in
  buf <- io_read_register reg 1 ;;
  buf' <- of_res (set_cell1 buf
            (if value then Z.lor (buf_get buf 1) bit_mask
             else Z.land (buf_get buf 1) (Z.lnot bit_mask))) ;;
  io_write_all buf'.

(** The mask loop of [RWBits.__init__]. *)
Fixpoint mask_loop (num_bits : nat) (m : Z) : Z :=
  match num_bits with
  | O => m
  | S n => mask_loop n (Z.shiftl m 1 + 1)
  end.

Definition bits_mask (num_bits : nat) (lowest_bit : Z) : Z :=
  Z.shiftl (mask_loop num_bits 0) lowest_bit.

(** [ROBits(n, reg, low).__get__]. *)
Definition Bits_get (num_bits : nat) (reg : byte) (lowest_bit : Z) : IO Z :=
  buf <- io_read_register reg 1 ;;
  ret (Z.shiftr (Z.land (buf_get buf 1) (bits_mask num_bits lowest_bit))
         lowest_bit).

(** [RWBits(n, reg, low).__set__]. *)
Definition RWBits_set (num_bits : nat) (reg : byte) (lowest_bit : Z)
    (value : Z) : IO unit :=
  let bit_mask := bits_mask num_bits lowest_bit in
  let value' := Z.lor (Z.shiftl value lowest_bit) (Z.lnot bit_mask) in
  buf <- io_read_register reg 1 ;;
  buf1 <- of_res (set_cell1 buf (Z.lor (buf_get buf 1) bit_mask)) ;;
  buf2 <- of_res (set_cell1 buf1 (Z.land (buf_get buf1 1) value')) ;;
  io_write_all buf2.

(** ** Constants of the module *)

Definition CCS811_ALG_RESULT_DATA : Z := 0x02.
Definition CCS811_RAW_DATA : Z := 0x03.
Definition CCS811_ENV_DATA : Z := 0x05.
Definition CCS811_NTC : Z := 0x06.
Definition CCS811_THRESHOLDS : Z := 0x10.
Definition CCS811_SW_RESET : Z := 0xFF.
Definition CCS811_DRIVE_MODE_IDLE : Z := 0x00.
Definition CCS811_DRIVE_MODE_1SEC : Z := 0x01.
Definition CCS811_DRIVE_MODE_10SEC : Z := 0x02.
Definition CCS811_DRIVE_MODE_60SEC : Z := 0x03.
Definition CCS811_DRIVE_MODE_250MS : Z := 0x04.
Definition CCS811_HW_ID_CODE : Z := 0x81.
Definition CCS811_REF_RESISTOR : Z := 100000.

(** ** The class CCS811 *)

Record CCS811 : Type := mkCCS811 {
  i2c_device : I2CDevice D;
  _eCO2 : option Z;
  _TVOC : option Z;
  temp_offset : R
}.

Definition Meth (A : Type) : Type := SE CCS811 A.

(** A bus computation run on [self.i2c_device]. *)
Definition on_bus {A : Type} (m : IO A) : Meth A :=
  fun self =>
    let '(r, i') := m (i2c_device self) in
    (r, mkCCS811 i' (_eCO2 self) (_TVOC self) (temp_offset self)).

(** The descriptors of the class. *)
Definition error : IO bool := Bit_get x00 0.
Definition data_ready : IO bool := Bit_get x00 3.
Definition app_valid : IO bool := Bit_get x00 4.
Definition fw_mode : IO bool := Bit_get x00 7.
Definition hw_id : IO Z := Bits_get 8 x20 0.
Definition int_thresh : IO bool := Bit_get x01 2.
Definition set_int_thresh (v : bool) : IO unit := RWBit_set x01 2 v.
Definition interrupt_enabled : IO bool := Bit_get x01 3.
Definition set_interrupt_enabled (v : bool) : IO unit := RWBit_set x01 3 v.
Definition drive_mode : IO Z := Bits_get 3 x01 4.
Definition set_drive_mode (v : Z) : IO unit := RWBits_set 3 x01 4 v.

(** [__init__], after [I2CDevice(i2c, addr)] has been built.  The object
    exists only when the result is [Ok]. *)
Definition __init__ : IO CCS811 :=
  id <- hw_id ;;
  if negb (id =? CCS811_HW_ID_CODE) then
    raise (RuntimeError
      "Device ID returned is not correct! Please check your wiring.")
  else
    io_write [xf4] 1 true ;;;
    io_sleep ;;;
    err <- error ;;
    if err then
      raise (RuntimeError
        "Device returned a error! Try removing and reapplying power to the device and running the code again.")
    else
      fw <- fw_mode ;;
      if negb fw then
        raise (RuntimeError
          "Device did not enter application mode! If you got here, there may be a problem with the firmware on your sensor.")
      else
        set_interrupt_enabled false ;;;
        set_drive_mode CCS811_DRIVE_MODE_1SEC ;;;
        fun i => (Ok (mkCCS811 i None None 0%R), i).

(** [error_code] *)
Definition error_code : Meth Z :=
  buf <- on_bus (io_read_register xe0 1) ;;
  ret (buf_get buf 1).

(** Assignment to the two cached attributes. *)
Definition set_eCO2 (v : Z) : Meth unit :=
  fun self =>
    (Ok tt, mkCCS811 (i2c_device self) (Some v) (_TVOC self) (temp_offset self)).

Definition set_TVOC (v : Z) : Meth unit :=
  fun self =>
    (Ok tt, mkCCS811 (i2c_device self) (_eCO2 self) (Some v) (temp_offset self)).

(** [(buf[i] << 8) | buf[i+1]] *)
Definition be16 (buf : list byte) (i : nat) : Z :=
  Z.lor (Z.shiftl (buf_get buf i) 8) (buf_get buf (S i)).

(** [_update_data] *)
Definition _update_data : Meth unit :=
  ready <- on_bus data_ready ;;
  if ready then
    buf <- on_bus (io_read_register x02 8) ;;
    set_eCO2 (be16 buf 1) ;;;
    set_TVOC (be16 buf 3) ;;;
    err <- on_bus error ;;
    if err then
      code <- error_code ;;
      raise (RuntimeError ("Error:" ++ str code))
    else ret tt
  else ret tt.

(** The property [TVOC]. *)
Definition TVOC : Meth (option Z) :=
  _update_data ;;;
  fun self => (Ok (_TVOC self), self).

(** The property [eCO2]. *)
Definition eCO2 : Meth (option Z) :=
  fun self => (Ok (_eCO2 self), self).

(** Float division and [math.log], with the exceptions Python raises. *)
Definition float_div (x y : R) : Res R :=
  if Req_dec_T y 0 then Raise ZeroDivisionError else Ok (x / y)%R.

Definition math_log (x : R) : Res R :=
  if Rle_dec x 0 then Raise ValueError else Ok (ln x).

(** The arithmetic of [temperature] on the two voltages read. *)
Definition ntc_temperature (vref vntc : Z) (offset : R) : Res R :=
  match float_div (IZR vntc * IZR CCS811_REF_RESISTOR) (IZR vref) with
  | Raise e => Raise e
  | Ok rntc =>
      match math_log (rntc / 10000) with
      | Raise e => Raise e
      | Ok l =>
          let ntc_temp := (l / 3380)%R in
          let ntc_temp := (ntc_temp + 1 / (25 + 273.15))%R in
          match float_div 1 ntc_temp with
          | Raise e => Raise e
          | Ok ntc_temp =>
              let ntc_temp := (ntc_temp - 273.15)%R in
              Ok (ntc_temp - offset)%R
          end
      end
  end.

(** The property [temperature]. *)
Definition temperature : Meth R :=
  buf <- on_bus (io_read_register x06 4) ;;
  let vref := be16 buf 1 in
  let vntc := be16 buf 3 in
  fun self => (ntc_temperature vref vntc (temp_offset self), self).

(** [int(x)]: identity on an int, truncation towards zero on a float. *)
Definition py_int (v : PyNum) : Z :=
  match v with
  | PyInt z => z
  | PyFloat x => if Rle_dec 0 x then Int_part x else (- Int_part (- x))%Z
  end.

(** [math.fmod], called with the argument list it is given: it takes
    exactly two numbers. *)
Definition as_float (v : PyNum) : R :=
  match v with PyInt z => IZR z | PyFloat x => x end.

Definition math_fmod (args : list PyNum) : Res PyNum :=
  match args with
  | [x; y] =>
      if Req_dec_T (as_float y) 0 then Raise ValueError
      else
        let q := py_int (PyFloat (as_float x / as_float y)) in
        Ok (PyFloat (as_float x - IZR q * as_float y))
  | _ => Raise TypeError
  end.

(** [v[i]] on a number: numbers are not subscriptable. *)
Definition py_getitem (v : PyNum) (i : Z) : Res PyNum := Raise TypeError.

(** The operators used on what [math.fmod] returned. *)
Definition py_add (a b : PyNum) : Res PyNum :=
  match a, b with
  | PyInt x, PyInt y => Ok (PyInt (x + y))
  | _, _ => Ok (PyFloat (as_float a + as_float b))
  end.

Definition py_truediv (a b : PyNum) : Res PyNum :=
  match float_div (as_float a) (as_float b) with
  | Ok q => Ok (PyFloat q)
  | Raise e => Raise e
  end.

Definition py_lshift (a b : PyNum) : Res Z :=
  match a, b with
  | PyInt x, PyInt y => if y <? 0 then Raise ValueError else Ok (Z.shiftl x y)
  | _, _ => Raise TypeError
  end.

Definition py_and (a b : PyNum) : Res Z :=
  match a, b with
  | PyInt x, PyInt y => Ok (Z.land x y)
  | _, _ => Raise TypeError
  end.

(** [set_environmental_data] *)
Definition set_environmental_data (humidity temperature : PyNum) : Meth unit :=
  let hum_perc := Z.shiftl (py_int humidity) 1 in
  parts <- of_res (math_fmod [temperature]) ;;
  fractional <- of_res (py_getitem parts 0) ;;
  temperature <- of_res (py_getitem parts 1) ;;
  t25 <- of_res (py_add temperature (PyInt 25)) ;;
  temp_high <- of_res (py_lshift t25 (PyInt 9)) ;;
  frac512 <- of_res (py_truediv fractional (PyFloat 0.001953125)) ;;
  temp_low <- of_res (py_and frac512 (PyInt 0x1FF)) ;;
  let temp_conv := Z.lor temp_high temp_low in
  buf <- of_res (bytearray [CCS811_ENV_DATA; hum_perc; 0x00;
                            Z.land (Z.shiftr temp_conv 8) 0xFF;
                            Z.land temp_conv 0xFF]) ;;
  on_bus (io_write_all buf).

(** [set_interrupt_thresholds] *)
Definition set_interrupt_thresholds (low_med med_high hysteresis : Z)
    : Meth unit :=
  buf <- of_res (bytearray [CCS811_THRESHOLDS;
                            Z.land (Z.shiftr low_med 8) 0xF;
                            Z.land low_med 0xF;
                            Z.land (Z.shiftr med_high 8) 0xF;
                            Z.land med_high 0xF;
                            hysteresis]) ;;
  on_bus (io_write_all buf).

(** [reset] *)
Definition reset : Meth unit :=
  seq <- of_res (bytearray [CCS811_SW_RESET; 0x11; 0xE5; 0x72; 0x8A]) ;;
  on_bus (io_write_all seq).

(** ** Callers *)

(** A caller that invokes the same method [n] times, catching what it
    raises, and keeps the results in order. *)
Fixpoint repeat_call {A : Type} (n : nat) (m : Meth A) (self : CCS811)
    : list (Res A) * CCS811 :=
  match n with
  | O => ([], self)
  | S k =>
      let '(r, self1) := m self in
      let '(rs, self2) := repeat_call k m self1 in
      (r :: rs, self2)
  end.

(** The device after [k] reads of [data_ready]. *)
Fixpoint poll (k : nat) (i : I2CDevice D) : I2CDevice D :=
  match k with
  | O => i
  | S k' => poll k' (snd (data_ready i))
  end.

(** Everything a user of the object can do to it: read or assign a
    descriptor, assign [temp_offset], call a method or read a property. *)
Inductive Op : Type :=
| GetError | GetDataReady | GetAppValid | GetFwMode | GetHwId
| GetIntThresh | SetIntThresh (v : bool)
| GetInterruptEnabled | SetInterruptEnabled (v : bool)
| GetDriveMode | SetDriveMode (v : Z)
| SetTempOffset (v : R)
| GetErrorCode | CallUpdateData | GetTVOC | GetECO2 | GetTemperature
| CallSetEnvironmentalData (humidity temperature : PyNum)
| CallSetInterruptThresholds (low_med med_high hysteresis : Z)
| CallReset.

(** The object after a computation, whether it returned or raised. *)
Definition after {A : Type} (m : Meth A) (self : CCS811) : CCS811 :=
  snd (m self).

Definition run_op (op : Op) (self : CCS811) : CCS811 :=
  match op with
  | GetError => after (on_bus error) self
  | GetDataReady => after (on_bus data_ready) self
  | GetAppValid => after (on_bus app_valid) self
  | GetFwMode => after (on_bus fw_mode) self
  | GetHwId => after (on_bus hw_id) self
  | GetIntThresh => after (on_bus int_thresh) self
  | SetIntThresh v => after (on_bus (set_int_thresh v)) self
  | GetInterruptEnabled => after (on_bus interrupt_enabled) self
  | SetInterruptEnabled v => after (on_bus (set_interrupt_enabled v)) self
  | GetDriveMode => after (on_bus drive_mode) self
  | SetDriveMode v => after (on_bus (set_drive_mode v)) self
  | SetTempOffset v =>
      mkCCS811 (i2c_device self) (_eCO2 self) (_TVOC self) v
  | GetErrorCode => after error_code self
  | CallUpdateData => after _update_data self
  | GetTVOC => after TVOC self
  | GetECO2 => after eCO2 self
  | GetTemperature => after temperature self
  | CallSetEnvironmentalData h t => after (set_environmental_data h t) self
  | CallSetInterruptThresholds a b c =>
      after (set_interrupt_thresholds a b c) self
  | CallReset => after reset self
  end.

(** The driver objects that exist: built by [__init__], then used. *)
Inductive reachable : CCS811 -> Prop :=
| reach_init (i i' : I2CDevice D) (self : CCS811) :
    __init__ i = (Ok self, i') -> reachable self
| reach_op (op : Op) (self : CCS811) :
    reachable self -> reachable (run_op op self).

End Driver.

Arguments CCS811 D : clear implicits.
Arguments Op : clear implicits.

(** ** Sessions *)

Section Usage.

Context {D : Type} `{I2CBus D}.

(** A user's session: operations on the object, one after the other. *)
Definition run_ops (ops : list Op) (self : CCS811 D) : CCS811 D :=
  fold_left (fun s op => run_op op s) ops self.

End Usage.

(** The three messages of [__init__]. *)
Definition wrong_device_msg : string :=
  "Device ID returned is not correct! Please check your wiring.".

Definition device_error_msg : string :=
  "Device returned a error! Try removing and reapplying power to the device and running the code again.".

Definition boot_failure_msg : string :=
  "Device did not enter application mode! If you got here, there may be a problem with the firmware on your sensor.".

(** The exceptions the driver raises itself: every [raise] statement of the
    class raises a [RuntimeError]; the other classes come from the
    interpreter, out of an operation that failed. *)
Definition driver_raised (e : exn) : bool :=
  match e with
  | RuntimeError _ => true
  | _ => false
  end.

(** The operations that call [_update_data]. *)
Definition refreshes (op : Op) : bool :=
  match op with
  | GetTVOC | CallUpdateData => true
  | _ => false
  end.

(** The operations that read: the getters of the descriptors, the
    properties, [error_code] and [_update_data]. *)
Definition reads_only (op : Op) : bool :=
  match op with
  | GetError | GetDataReady | GetAppValid | GetFwMode | GetHwId
  | GetIntThresh | GetInterruptEnabled | GetDriveMode
  | GetErrorCode | CallUpdateData | GetTVOC | GetECO2 | GetTemperature => true
  | _ => false
  end.

(** The bus traffic of a register read: the register address written alone
    and without stop, and the read itself. *)
Definition read_traffic (ev : Event) : bool :=
  match ev with
  | EvWrite [_] false => true
  | EvRead _ => true
  | _ => false
  end.

(** ** A simulated chip

    A register file behind the bus: a write selects the register named by
    its first byte and stores what follows, a read returns the selected
    register. *)
Module Sim.

Record Chip : Type := mkChip {
  pointer : byte;
  regs : list (byte * list byte)
}.

Fixpoint lookup (r : byte) (l : list (byte * list byte)) : list byte :=
  match l with
  | [] => []
  | (k, v) :: l' => if Byte.eqb k r then v else lookup r l'
  end.

Fixpoint store (r : byte) (v : list byte) (l : list (byte * list byte))
    : list (byte * list byte) :=
  match l with
  | [] => [(r, v)]
  | (k, w) :: l' => if Byte.eqb k r then (k, v) :: l' else (k, w) :: store r v l'
  end.

Definition writeto (data : list byte) (stop : bool) (c : Chip) : Chip :=
  match data with
  | [] => c
  | r :: [] => mkChip r (regs c)
  | r :: payload => mkChip r (store r payload (regs c))
  end.

Definition readfrom (n : nat) (c : Chip) : list byte * Chip :=
  (firstn n (lookup (pointer c) (regs c)), c).

#[export] Instance chip_bus : I2CBus Chip := {
  bus_writeto := writeto;
  bus_readfrom := readfrom
}.

(** A chip by the content of the registers the driver reads. *)
Definition chip (status hw err : byte) (alg ntc : list byte) : Chip :=
  mkChip x00
    [(x00, [status]); (x01, [x00]); (x02, alg); (x06, ntc);
     (x20, [hw]); (xe0, [err])].

Definition fresh (c : Chip) : I2CDevice Chip := mkI2C c [].

Definition driver (c : Chip) (e t : option Z) : CCS811 Chip :=
  mkCCS811 (fresh c) e t 0%R.

(** Eight bytes of ALG_RESULT_DATA: eCO2 = 600 (0x0258), TVOC = 50. *)
Definition alg_600_50 : list byte :=
  [x02; x58; x00; x32; x00; x00; x00; x00].

(** Four bytes of NTC: vref, then vntc. *)
Definition ntc_1000_1000 : list byte := [x03; xe8; x03; xe8].
Definition ntc_1000_0 : list byte := [x03; xe8; x00; x00].
Definition ntc_0_1000 : list byte := [x00; x00; x03; xe8].

(** A driver that has read 400 ppm and 0 ppb before, on a chip whose status
    register has dataReady and error set (0x09) and error code 2. *)
Definition erring : CCS811 Chip :=
  driver (chip x09 x81 x02 alg_600_50 ntc_1000_1000) (Some 400) (Some 0).

(** The same, with no data ready: status 0x01, the error bit alone. *)
Definition idle_erring : CCS811 Chip :=
  driver (chip x01 x81 x02 alg_600_50 ntc_1000_1000) (Some 400) (Some 0).

(** Something else than a CCS811 on the bus: hardware id 0x80. *)
Definition wrong_id : I2CDevice Chip :=
  fresh (chip x90 x80 x00 alg_600_50 ntc_1000_1000).

(** A healthy chip in application mode (status 0x90), before [__init__]. *)
Definition healthy : I2CDevice Chip :=
  fresh (chip x90 x81 x00 alg_600_50 ntc_1000_1000).

(** A chip in application mode with a measurement waiting (status 0x98),
    before [__init__], and the object [__init__] builds on it. *)
Definition measuring : I2CDevice Chip :=
  fresh (chip x98 x81 x00 alg_600_50 ntc_1000_1000).

Definition booted : CCS811 Chip :=
  mkCCS811 (snd (__init__ measuring)) None None 0%R.

(** A chip that started its application with the error bit set (status
    0x91), and one that stayed in the boot loader (status 0x10). *)
Definition faulty : I2CDevice Chip :=
  fresh (chip x91 x81 x02 alg_600_50 ntc_1000_1000).

Definition bootloader : I2CDevice Chip :=
  fresh (chip x10 x81 x00 alg_600_50 ntc_1000_1000).

(** The byte of value [z mod 256]. *)
Definition byte_of_Z (z : Z) : byte :=
  match Byte.of_N (Z.to_N (z mod 256)) with
  | Some b => b
  | None => x00
  end.

(** A driver with an empty cache on a chip that has the measurement
    [(e, t)] waiting, error bit clear. *)
Definition reporting (e t : Z) : CCS811 Chip :=
  driver (chip x98 x81 x00
            [byte_of_Z (e / 256); byte_of_Z e; byte_of_Z (t / 256); byte_of_Z t;
             x00; x00; x00; x00]
            ntc_1000_1000)
    None None.

(** The thermistor at its nominal resistance: vref = 1000, vntc = 100. *)
Definition ntc_1000_100 : list byte := [x03; xe8; x00; x64].

Definition nominal : CCS811 Chip :=
  driver (chip x90 x81 x00 alg_600_50 ntc_1000_100) None None.

(** Drivers on chips with the three thermistor readings. *)
Definition warm : CCS811 Chip :=
  driver (chip x90 x81 x00 alg_600_50 ntc_1000_1000) None None.
Definition shorted : CCS811 Chip :=
  driver (chip x90 x81 x00 alg_600_50 ntc_1000_0) None None.
Definition unpowered : CCS811 Chip :=
  driver (chip x90 x81 x00 alg_600_50 ntc_0_1000) None None.

End Sim.

(** * Properties *)

(** ** Bytes *)

Lemma byte_val_range (b : byte) : 0 <= byte_val b < 256.
Proof.
  unfold byte_val. pose proof (Byte.to_N_bounded b). lia.
Qed.

Lemma buf_get_range (buf : list byte) (i : nat) : 0 <= buf_get buf i < 256.
Proof. apply byte_val_range. Qed.

Lemma lor_shiftl8 (a b : Z) :
  0 <= a -> 0 <= b < 256 -> Z.lor (Z.shiftl a 8) b = a * 256 + b.
Proof.
  intros Ha Hb.
  rewrite Z.shiftl_mul_pow2 by lia.
  assert (Hland : Z.land (a * 2 ^ 8) b = 0).
  { apply Z.bits_inj'. intros n Hn.
    rewrite Z.land_spec, Z.bits_0.
    destruct (Z.ltb_spec n 8) as [Hlt | Hge].
    - rewrite Z.mul_pow2_bits_low by lia. reflexivity.
    - destruct (Z.eq_dec b 0) as [-> | Hnz].
      + rewrite Z.bits_0. apply andb_false_r.
      + rewrite (Z.bits_above_log2 b n); [apply andb_false_r | lia |].
        apply Z.lt_le_trans with 8; [| exact Hge].
        apply Z.log2_lt_pow2; [lia |].
        change (2 ^ 8) with 256. lia. }
  pose proof (Z.add_lor_land (a * 2 ^ 8) b) as Hadd.
  rewrite Hland in Hadd. change (2 ^ 8) with 256 in *. lia.
Qed.

Lemma be16_sum (buf : list byte) (i : nat) :
  be16 buf i = buf_get buf i * 256 + buf_get buf (S i).
Proof.
  unfold be16. apply lor_shiftl8; apply buf_get_range.
Qed.

Lemma be16_range (buf : list byte) (i : nat) : 0 <= be16 buf i < 65536.
Proof.
  rewrite be16_sum.
  pose proof (buf_get_range buf i). pose proof (buf_get_range buf (S i)). lia.
Qed.

Lemma land_255_byte (z : Z) : 0 <= z < 256 -> Z.land z 255 = z.
Proof.
  intros Hz. change 255 with (Z.ones 8).
  rewrite Z.land_ones by lia. apply Z.mod_small. exact Hz.
Qed.

(** What [read_into] leaves in the cells it fills. *)
Lemma fill_from_0_nth (n k : nat) (data : list byte) :
  (k < n)%nat ->
  nth k (fill_from 0 data (repeat x00 n)) x00 = nth k data x00.
Proof.
  revert k data. induction n as [| n IH]; intros k data Hk; [lia |].
  simpl. destruct data as [| d data].
  - destruct k; simpl; [reflexivity |].
    destruct k; [| rewrite nth_repeat]; destruct n; reflexivity.
  - destruct k; simpl; [reflexivity |]. apply IH. lia.
Qed.

Section Facts.

Context {D : Type} `{I2CBus D}.

(** *** Register reads *)

(** The bytes the bus delivered in a register read. *)
Lemma read_register_cells (reg : byte) (len k : nat) (i : I2CDevice D) :
  (k < len)%nat ->
  buf_get (fst (read_register reg len i)) (S k) =
  byte_val (nth k (fst (bus_readfrom len (bus_writeto [reg] false (dev i)))) x00).
Proof.
  intros Hk. unfold read_register, i2c_read_into, i2c_write, buf_get, bytearray_zeros.
  cbn [List.length firstn dev log].
  rewrite Nat.sub_succ, Nat.sub_0_r, repeat_length.
  destruct (bus_readfrom len (bus_writeto [reg] false (dev i))) as [data d'].
  cbn [fst fill_from nth]. rewrite fill_from_0_nth by exact Hk. reflexivity.
Qed.

Lemma read_register_log (reg : byte) (len : nat) (i : I2CDevice D) :
  log (snd (read_register reg len i)) =
  log i ++ [EvWrite [reg] false; EvRead len].
Proof.
  unfold read_register, i2c_read_into, i2c_write, bytearray_zeros.
  cbn [List.length firstn dev log].
  rewrite Nat.sub_succ, Nat.sub_0_r, repeat_length.
  destruct (bus_readfrom len (bus_writeto [reg] false (dev i))) as [data d'].
  cbn [snd log]. rewrite <- app_assoc. reflexivity.
Qed.

Lemma io_read_register_eq (reg : byte) (len : nat) (i : I2CDevice D) :
  io_read_register reg len i =
  (Ok (fst (read_register reg len i)), snd (read_register reg len i)).
Proof.
  unfold io_read_register. destruct (read_register reg len i). reflexivity.
Qed.

Lemma Bit_get_eq (reg : byte) (bit : Z) (i : I2CDevice D) :
  Bit_get reg bit i =
  (Ok (negb (Z.land (buf_get (fst (read_register reg 1 i)) 1)
                    (Z.shiftl 1 bit) =? 0)),
   snd (read_register reg 1 i)).
Proof.
  unfold Bit_get, bind. rewrite io_read_register_eq. reflexivity.
Qed.

Lemma Bit_get_log (reg : byte) (bit : Z) (i : I2CDevice D) :
  log (snd (Bit_get reg bit i)) = log i ++ [EvWrite [reg] false; EvRead 1].
Proof. rewrite Bit_get_eq. apply read_register_log. Qed.

Lemma Bits_get_eq (n : nat) (reg : byte) (low : Z) (i : I2CDevice D) :
  Bits_get n reg low i =
  (Ok (Z.shiftr (Z.land (buf_get (fst (read_register reg 1 i)) 1)
                        (bits_mask n low)) low),
   snd (read_register reg 1 i)).
Proof.
  unfold Bits_get, bind. rewrite io_read_register_eq. reflexivity.
Qed.

(** [hw_id] is the whole byte of register 0x20. *)
Lemma hw_id_eq (i : I2CDevice D) :
  hw_id i =
  (Ok (buf_get (fst (read_register x20 1 i)) 1), snd (read_register x20 1 i)).
Proof.
  unfold hw_id. rewrite Bits_get_eq.
  change (bits_mask 8 0) with 255.
  rewrite land_255_byte by apply buf_get_range.
  rewrite Z.shiftr_0_r. reflexivity.
Qed.

(** *** The two branches of [_update_data] *)

Lemma update_data_idle (self : CCS811 D) :
  fst (data_ready (i2c_device self)) = Ok false ->
  _update_data self =
  (Ok tt, mkCCS811 (snd (data_ready (i2c_device self)))
            (_eCO2 self) (_TVOC self) (temp_offset self)).
Proof.
  intros Hr. unfold _update_data, bind, on_bus.
  destruct (data_ready (i2c_device self)) as [r i1].
  cbn [fst snd] in *. subst r. reflexivity.
Qed.

Lemma update_data_ready (self : CCS811 D) :
  fst (data_ready (i2c_device self)) = Ok true ->
  let i1 := snd (data_ready (i2c_device self)) in
  let buf := fst (read_register x02 8 i1) in
  let i2 := snd (read_register x02 8 i1) in
  let i3 := snd (error i2) in
  let i4 := snd (read_register xe0 1 i3) in
  let code := buf_get (fst (read_register xe0 1 i3)) 1 in
  _update_data self =
  match fst (error i2) with
  | Ok true =>
      (Raise (RuntimeError ("Error:" ++ str code)),
       mkCCS811 i4 (Some (be16 buf 1)) (Some (be16 buf 3)) (temp_offset self))
  | _ =>
      (Ok tt,
       mkCCS811 i3 (Some (be16 buf 1)) (Some (be16 buf 3)) (temp_offset self))
  end.
Proof.
  intros Hr. unfold _update_data, bind, on_bus.
  destruct (data_ready (i2c_device self)) as [r i1].
  cbn [fst snd] in *. subst r.
  rewrite io_read_register_eq.
  cbn [set_eCO2 set_TVOC i2c_device _eCO2 _TVOC temp_offset].
  unfold error. rewrite !Bit_get_eq. cbn [fst snd].
  destruct (negb _).
  - unfold error_code, bind, on_bus. cbn [i2c_device _eCO2 _TVOC temp_offset].
    rewrite io_read_register_eq. reflexivity.
  - reflexivity.
Qed.

End Facts.

(** ** The measurement cache *)

Section Cache.

Context {D : Type} `{I2CBus D}.

Lemma TVOC_idle (self : CCS811 D) :
  fst (data_ready (i2c_device self)) = Ok false ->
  TVOC self =
  (Ok (_TVOC self),
   mkCCS811 (snd (data_ready (i2c_device self)))
     (_eCO2 self) (_TVOC self) (temp_offset self)).
Proof.
  intros Hr. unfold TVOC, bind. rewrite update_data_idle by exact Hr.
  reflexivity.
Qed.

Lemma TVOC_unfold (self : CCS811 D) :
  TVOC self =
  match _update_data self with
  | (Ok _, self') => (Ok (_TVOC self'), self')
  | (Raise e, self') => (Raise e, self')
  end.
Proof. reflexivity. Qed.

Lemma data_ready_bool (i : I2CDevice D) :
  fst (data_ready i) = Ok true \/ fst (data_ready i) = Ok false.
Proof.
  unfold data_ready. rewrite Bit_get_eq. cbn [fst].
  destruct (negb _); [left | right]; reflexivity.
Qed.

Lemma error_bool (i : I2CDevice D) :
  fst (error i) = Ok true \/ fst (error i) = Ok false.
Proof.
  unfold error. rewrite Bit_get_eq. cbn [fst].
  destruct (negb _); [left | right]; reflexivity.
Qed.

(** C1, as the code has it: when the refresh finds data ready, reads the
    eight bytes and then finds the error bit set, it raises
    [RuntimeError("Error:" + str(error_code))], and the two cached fields
    hold the pair parsed from the bytes just read: the assignment comes
    before the check, the previous values are gone. *)
Theorem update_data_error_publishes (self : CCS811 D) :
  let i1 := snd (data_ready (i2c_device self)) in
  let buf := fst (read_register x02 8 i1) in
  let i2 := snd (read_register x02 8 i1) in
  let i3 := snd (error i2) in
  let code := buf_get (fst (read_register xe0 1 i3)) 1 in
  fst (data_ready (i2c_device self)) = Ok true ->
  fst (error i2) = Ok true ->
  fst (_update_data self) = Raise (RuntimeError ("Error:" ++ str code)) /\
  _eCO2 (snd (_update_data self)) = Some (be16 buf 1) /\
  _TVOC (snd (_update_data self)) = Some (be16 buf 3).
Proof.
  intros i1 buf i2 i3 code Hready Herr.
  rewrite (update_data_ready self Hready).
  fold i1. fold i2. rewrite Herr. cbn [fst snd _eCO2 _TVOC].
  repeat split.
Qed.

(** C7: while [data_ready] reads false, calling the accessor again and
    again changes nothing in the cache: each of the [n] calls of [TVOC]
    returns the TVOC cached at the start, [eCO2] still returns the eCO2
    cached at the start (possibly [None]), and [n] calls of [_update_data]
    likewise leave both fields alone. *)
Theorem refresh_idle_repeat (n : nat) (self : CCS811 D) :
  (forall k, (k < n)%nat ->
     fst (data_ready (poll k (i2c_device self))) = Ok false) ->
  repeat_call n TVOC self =
    (repeat (Ok (_TVOC self)) n,
     mkCCS811 (poll n (i2c_device self))
       (_eCO2 self) (_TVOC self) (temp_offset self)) /\
  fst (eCO2 (snd (repeat_call n TVOC self))) = Ok (_eCO2 self) /\
  repeat_call n _update_data self =
    (repeat (Ok tt) n,
     mkCCS811 (poll n (i2c_device self))
       (_eCO2 self) (_TVOC self) (temp_offset self)).
Proof.
  revert self. induction n as [| n IH]; intros self Hidle.
  - destruct self; repeat split.
  - assert (H0 : fst (data_ready (i2c_device self)) = Ok false)
      by (apply (Hidle O); lia).
    set (self1 := mkCCS811 (snd (data_ready (i2c_device self)))
                    (_eCO2 self) (_TVOC self) (temp_offset self)).
    assert (Hnext : forall k, (k < n)%nat ->
              fst (data_ready (poll k (i2c_device self1))) = Ok false).
    { intros k Hk. apply (Hidle (S k)). lia. }
    destruct (IH self1 Hnext) as (Ht & He & Hu).
    cbn [repeat_call repeat poll].
    rewrite (TVOC_idle self H0), (update_data_idle self H0).
    fold self1. rewrite Hu.
    cbn [repeat_call] in He |- *. rewrite Ht in He |- *.
    repeat split.
Qed.

(** C9: [eCO2] returns the cached field and leaves the object, bus and log
    included, exactly as it was; [TVOC] is [_update_data] followed by the
    read of its field, and always begins with a read of the status
    register. *)
Theorem eCO2_reads_cache_only (self : CCS811 D) :
  eCO2 self = (Ok (_eCO2 self), self) /\
  TVOC self =
    match _update_data self with
    | (Ok _, self') => (Ok (_TVOC self'), self')
    | (Raise e, self') => (Raise e, self')
    end /\
  exists rest,
    log (i2c_device (snd (TVOC self))) =
    log (i2c_device self) ++ [EvWrite [x00] false; EvRead 1] ++ rest.
Proof.
  split; [reflexivity |]. split; [apply TVOC_unfold |].
  destruct (data_ready_bool (i2c_device self)) as [Hr | Hr].
  - rewrite TVOC_unfold, (update_data_ready self Hr).
    set (i1 := snd (data_ready (i2c_device self))).
    set (i2 := snd (read_register x02 8 i1)).
    assert (L1 : log i1 = log (i2c_device self) ++ [EvWrite [x00] false; EvRead 1])
      by apply Bit_get_log.
    assert (L2 : log i2 = log i1 ++ [EvWrite [x02] false; EvRead 8])
      by apply read_register_log.
    assert (L3 : log (snd (error i2)) = log i2 ++ [EvWrite [x00] false; EvRead 1])
      by apply Bit_get_log.
    destruct (error_bool i2) as [He | He]; rewrite He; cbn [snd i2c_device].
    + rewrite read_register_log, L3, L2, L1.
      rewrite <- !app_assoc. eexists. reflexivity.
    + rewrite L3, L2, L1. rewrite <- !app_assoc. eexists. reflexivity.
  - rewrite (TVOC_idle self Hr). cbn [snd i2c_device].
    exists []. apply Bit_get_log.
Qed.

(** C10: when [data_ready] reads false, [TVOC] returns the cached value
    without raising, whatever the error bit is: the only bus traffic is the
    one read of the status register, and the error bit of the byte read is
    never looked at. *)
Theorem TVOC_idle_ignores_error (self : CCS811 D) :
  fst (data_ready (i2c_device self)) = Ok false ->
  fst (TVOC self) = Ok (_TVOC self) /\
  _eCO2 (snd (TVOC self)) = _eCO2 self /\
  _TVOC (snd (TVOC self)) = _TVOC self /\
  log (i2c_device (snd (TVOC self))) =
    log (i2c_device self) ++ [EvWrite [x00] false; EvRead 1].
Proof.
  intros Hr. rewrite (TVOC_idle self Hr). cbn [fst snd _eCO2 _TVOC i2c_device].
  repeat split. apply Bit_get_log.
Qed.

End Cache.

(** ** Construction and configuration writes *)

Section Configuration.

Context {D : Type} `{I2CBus D}.

(** C6: when the byte read from register 0x20 is not 0x81, [__init__]
    raises the wrong-device [RuntimeError] and the only bus traffic is the
    hardware-id read itself (the register pointer, then one byte): nothing
    is written afterwards, and 0xF4 is never sent. *)
Theorem init_wrong_hw_id (i : I2CDevice D) :
  buf_get (fst (read_register x20 1 i)) 1 <> 0x81 ->
  fst (__init__ i) =
    Raise (RuntimeError
      "Device ID returned is not correct! Please check your wiring.") /\
  snd (__init__ i) = snd (read_register x20 1 i) /\
  log (snd (__init__ i)) = log i ++ [EvWrite [x20] false; EvRead 1] /\
  ~ In (EvWrite [xf4] true) (skipn (List.length (log i)) (log (snd (__init__ i)))).
Proof.
  intros Hid.
  assert (E : __init__ i =
              (Raise (RuntimeError
                 "Device ID returned is not correct! Please check your wiring."),
               snd (read_register x20 1 i))).
  { unfold __init__, bind. rewrite hw_id_eq.
    unfold CCS811_HW_ID_CODE.
    destruct (Z.eqb_spec (buf_get (fst (read_register x20 1 i)) 1) 129) as [Heq | Hne].
    - contradiction.
    - reflexivity. }
  rewrite E. cbn [fst snd]. rewrite read_register_log.
  repeat split.
  rewrite skipn_app, skipn_all, Nat.sub_diag. cbn [skipn app In].
  intros [Hw | [Hr | []]]; discriminate.
Qed.

(** C2, at the input the claim names: [set_interrupt_thresholds(300, 600,
    50)] writes [10 01 0C 02 08 32]: each half of a boundary is masked with
    0xF, so the low bytes 0x2C and 0x58 lose their upper nibble, and the
    bytes sent are not [10 01 2C 02 58 32]. *)
Theorem thresholds_300_600_50_masked (self : CCS811 D) :
  fst (set_interrupt_thresholds 300 600 50 self) = Ok tt /\
  log (i2c_device (snd (set_interrupt_thresholds 300 600 50 self))) =
    log (i2c_device self) ++ [EvWrite [x10; x01; x0c; x02; x08; x32] true] /\
  [x10; x01; x0c; x02; x08; x32] <> [x10; x01; x2c; x02; x58; x32].
Proof.
  repeat split. discriminate.
Qed.

(** C3, at the input the claim names: [set_environmental_data(50, 25.5)]
    computes the humidity field 100 and then stops in [TypeError] at
    [math.fmod(temperature)], which is called with one argument; the
    object is left as it was and nothing is written to the bus. *)
Theorem environmental_data_50_25_5_raises (self : CCS811 D) :
  Z.shiftl (py_int (PyInt 50)) 1 = 100 /\
  set_environmental_data (PyInt 50) (PyFloat 25.5) self = (Raise TypeError, self).
Proof.
  split; reflexivity.
Qed.

(** C4, as the code has it: when the reference voltage read from the NTC
    register is 0, [temperature] raises [ZeroDivisionError] (the float
    division by [float(vref)] raises it, the driver tests nothing): no
    number is returned. *)
Theorem temperature_vref_zero (self : CCS811 D) :
  be16 (fst (read_register x06 4 (i2c_device self))) 1 = 0 ->
  fst (temperature self) = Raise ZeroDivisionError /\
  (forall t, fst (temperature self) <> Ok t).
Proof.
  intros Hv.
  assert (E : fst (temperature self) = Raise ZeroDivisionError).
  { unfold temperature, bind, on_bus. rewrite io_read_register_eq.
    cbn [fst snd temp_offset]. rewrite Hv.
    unfold ntc_temperature, float_div.
    destruct (Req_dec_T (IZR 0) 0) as [_ | Hne]; [reflexivity |].
    exfalso. apply Hne. reflexivity. }
  split; [exact E |]. intros t. rewrite E. discriminate.
Qed.

End Configuration.

(** ** The cached pair moves as a pair *)

Section Pair.

Context {D : Type} `{I2CBus D}.

Lemma on_bus_cache {A : Type} (m : IO A) (self : CCS811 D) :
  _eCO2 (snd (on_bus m self)) = _eCO2 self /\
  _TVOC (snd (on_bus m self)) = _TVOC self.
Proof.
  unfold on_bus. destruct (m (i2c_device self)). split; reflexivity.
Qed.

Lemma bind_on_bus_cache {A B : Type} (m : IO A) (k : A -> Meth B)
    (self : CCS811 D) :
  (forall a s, _eCO2 (snd (k a s)) = _eCO2 s /\ _TVOC (snd (k a s)) = _TVOC s) ->
  _eCO2 (snd (bind (on_bus m) k self)) = _eCO2 self /\
  _TVOC (snd (bind (on_bus m) k self)) = _TVOC self.
Proof.
  intros Hk. unfold bind, on_bus.
  destruct (m (i2c_device self)) as [[a | e] i'].
  - destruct (Hk a (mkCCS811 i' (_eCO2 self) (_TVOC self) (temp_offset self)))
      as [H1 H2].
    rewrite H1, H2. split; reflexivity.
  - split; reflexivity.
Qed.

Lemma write_buffer_cache (r : Res (list byte)) (self : CCS811 D) :
  _eCO2 (snd (bind (of_res r) (fun buf => on_bus (io_write_all buf)) self)) =
    _eCO2 self /\
  _TVOC (snd (bind (of_res r) (fun buf => on_bus (io_write_all buf)) self)) =
    _TVOC self.
Proof.
  unfold bind, of_res. destruct r as [buf | e].
  - apply on_bus_cache.
  - split; reflexivity.
Qed.

(** The pair parsed by [_update_data], in terms of the bytes the bus
    delivered. *)
Lemma update_data_cache (self : CCS811 D) :
  let i1 := snd (data_ready (i2c_device self)) in
  let data := fst (bus_readfrom 8 (bus_writeto [x02] false (dev i1))) in
  (_eCO2 (snd (_update_data self)) = _eCO2 self /\
   _TVOC (snd (_update_data self)) = _TVOC self) \/
  (fst (data_ready (i2c_device self)) = Ok true /\
   _eCO2 (snd (_update_data self)) =
     Some (Z.lor (Z.shiftl (byte_val (nth 0 data x00)) 8)
                 (byte_val (nth 1 data x00))) /\
   _TVOC (snd (_update_data self)) =
     Some (Z.lor (Z.shiftl (byte_val (nth 2 data x00)) 8)
                 (byte_val (nth 3 data x00)))).
Proof.
  intros i1 data.
  destruct (data_ready_bool (i2c_device self)) as [Hr | Hr].
  - right. split; [exact Hr |].
    rewrite (update_data_ready self Hr). fold i1.
    assert (E1 : be16 (fst (read_register x02 8 i1)) 1 =
                 Z.lor (Z.shiftl (byte_val (nth 0 data x00)) 8)
                       (byte_val (nth 1 data x00))).
    { unfold be16. rewrite !read_register_cells by lia. reflexivity. }
    assert (E3 : be16 (fst (read_register x02 8 i1)) 3 =
                 Z.lor (Z.shiftl (byte_val (nth 2 data x00)) 8)
                       (byte_val (nth 3 data x00))).
    { unfold be16. rewrite !read_register_cells by lia. reflexivity. }
    rewrite <- E1, <- E3.
    destruct (fst (error (snd (read_register x02 8 i1)))) as [[|] | e];
      split; reflexivity.
  - left. rewrite (update_data_idle self Hr). split; reflexivity.
Qed.

Lemma TVOC_after (self : CCS811 D) :
  snd (TVOC self) = snd (_update_data self).
Proof.
  rewrite TVOC_unfold. destruct (_update_data self) as [[u | e] s]; reflexivity.
Qed.

Lemma init_cache (i i' : I2CDevice D) (self : CCS811 D) :
  __init__ i = (Ok self, i') -> _eCO2 self = None /\ _TVOC self = None.
Proof.
  unfold __init__, bind.
  destruct (hw_id i) as [[id | e] i1]; [| discriminate].
  destruct (negb (id =? CCS811_HW_ID_CODE)); [discriminate |].
  cbn [io_write io_sleep].
  destruct (error _) as [[[|] | e] i2]; try discriminate.
  destruct (fw_mode i2) as [[[|] | e] i3]; try discriminate.
  cbn [negb].
  destruct (set_interrupt_enabled false i3) as [[u | e] i4]; [| discriminate].
  destruct (set_drive_mode CCS811_DRIVE_MODE_1SEC i4) as [[u' | e] i5];
    [| discriminate].
  intros E. injection E as <- _. split; reflexivity.
Qed.

(** C8.  First, for every operation on the object: either both cached
    fields are what they were, or the operation found data ready and both
    fields hold the values parsed from the eight bytes of the one read of
    register 0x02 it made, eCO2 from bytes 0 and 1 and TVOC from bytes 2 and
    3, big-endian.  Second, in every reachable state the two fields are both
    absent or both present. *)
Theorem cache_updates_as_pair :
  (forall (op : Op) (self : CCS811 D),
     let i1 := snd (data_ready (i2c_device self)) in
     let data := fst (bus_readfrom 8 (bus_writeto [x02] false (dev i1))) in
     (_eCO2 (run_op op self) = _eCO2 self /\
      _TVOC (run_op op self) = _TVOC self) \/
     (fst (data_ready (i2c_device self)) = Ok true /\
      _eCO2 (run_op op self) =
        Some (Z.lor (Z.shiftl (byte_val (nth 0 data x00)) 8)
                    (byte_val (nth 1 data x00))) /\
      _TVOC (run_op op self) =
        Some (Z.lor (Z.shiftl (byte_val (nth 2 data x00)) 8)
                    (byte_val (nth 3 data x00))))) /\
  (forall self : CCS811 D,
     reachable self ->
     (_eCO2 self = None /\ _TVOC self = None) \/
     (exists e t, _eCO2 self = Some e /\ _TVOC self = Some t)).
Proof.
  assert (Step : forall (op : Op) (self : CCS811 D),
     let i1 := snd (data_ready (i2c_device self)) in
     let data := fst (bus_readfrom 8 (bus_writeto [x02] false (dev i1))) in
     (_eCO2 (run_op op self) = _eCO2 self /\
      _TVOC (run_op op self) = _TVOC self) \/
     (fst (data_ready (i2c_device self)) = Ok true /\
      _eCO2 (run_op op self) =
        Some (Z.lor (Z.shiftl (byte_val (nth 0 data x00)) 8)
                    (byte_val (nth 1 data x00))) /\
      _TVOC (run_op op self) =
        Some (Z.lor (Z.shiftl (byte_val (nth 2 data x00)) 8)
                    (byte_val (nth 3 data x00))))).
  { intros op self i1 data.
    destruct op; cbn [run_op]; unfold after;
      try (left; apply on_bus_cache);
      try (left; split; reflexivity).
    - left. unfold error_code. apply bind_on_bus_cache.
      intros a s. split; reflexivity.
    - apply update_data_cache.
    - rewrite TVOC_after. apply update_data_cache.
    - left. unfold temperature. apply bind_on_bus_cache.
      intros a s. split; reflexivity.
    - left. unfold set_interrupt_thresholds. apply write_buffer_cache. }
  split; [exact Step |].
  intros self Hreach. induction Hreach as [i i' self Hinit | op self Hreach IH].
  - left. exact (init_cache i i' self Hinit).
  - destruct (Step op self) as [[He Ht] | (_ & He & Ht)].
    + rewrite He, Ht. exact IH.
    + right. eauto.
Qed.

End Pair.

(** ** The thermistor formula *)

Section Thermistor.

Local Open Scope R_scope.

Lemma exp_double_lower (x a b : R) :
  0 <= a -> a <= exp x -> b <= a * a -> b <= exp (2 * x).
Proof.
  intros Ha Hx Hb.
  replace (2 * x) with (x + x) by ring.
  rewrite exp_plus. nra.
Qed.

(** [exp 11.2 > 6554]: five squarings from [1 + 0.35 <= exp 0.35]. *)
Lemma exp_11_2_lower : 6554 < exp 11.2.
Proof.
  assert (H0 : 1.35 <= exp 0.35)
    by (pose proof (exp_ineq1_le 0.35); lra).
  assert (H1 : 1.8225 <= exp (2 * 0.35))
    by (apply (exp_double_lower _ 1.35); [lra | exact H0 | lra]).
  assert (H2 : 3.321506 <= exp (2 * (2 * 0.35)))
    by (apply (exp_double_lower _ 1.8225); [lra | exact H1 | lra]).
  assert (H3 : 11.032402 <= exp (2 * (2 * (2 * 0.35))))
    by (apply (exp_double_lower _ 3.321506); [lra | exact H2 | lra]).
  assert (H4 : 121.713893 <= exp (2 * (2 * (2 * (2 * 0.35)))))
    by (apply (exp_double_lower _ 11.032402); [lra | exact H3 | lra]).
  assert (H5 : 14814.271749 <= exp (2 * (2 * (2 * (2 * (2 * 0.35))))))
    by (apply (exp_double_lower _ 121.713893); [lra | exact H4 | lra]).
  replace 11.2 with (2 * (2 * (2 * (2 * (2 * 0.35))))) by lra.
  lra.
Qed.

(** [exp 2.32 > 10]: eight squarings from [1 + 2.32/256]. *)
Lemma exp_2_32_lower : 10 < exp 2.32.
Proof.
  set (x := 2.32 / 256).
  assert (H0 : 1.0090625 <= exp x)
    by (pose proof (exp_ineq1_le x); unfold x in *; lra).
  assert (H1 : 1.0182071289 <= exp (2 * x))
    by (apply (exp_double_lower _ 1.0090625); [lra | exact H0 | lra]).
  assert (H2 : 1.0367457573 <= exp (2 * (2 * x)))
    by (apply (exp_double_lower _ 1.0182071289); [lra | exact H1 | lra]).
  assert (H3 : 1.0748417652 <= exp (2 * (2 * (2 * x))))
    by (apply (exp_double_lower _ 1.0367457573); [lra | exact H2 | lra]).
  assert (H4 : 1.1552848202 <= exp (2 * (2 * (2 * (2 * x)))))
    by (apply (exp_double_lower _ 1.0748417652); [lra | exact H3 | lra]).
  assert (H5 : 1.3346830157 <= exp (2 * (2 * (2 * (2 * (2 * x))))))
    by (apply (exp_double_lower _ 1.1552848202); [lra | exact H4 | lra]).
  assert (H6 : 1.7813787523 <= exp (2 * (2 * (2 * (2 * (2 * (2 * x)))))))
    by (apply (exp_double_lower _ 1.3346830157); [lra | exact H5 | lra]).
  assert (H7 : 3.1733102591 <=
               exp (2 * (2 * (2 * (2 * (2 * (2 * (2 * x))))))))
    by (apply (exp_double_lower _ 1.7813787523); [lra | exact H6 | lra]).
  assert (H8 : 10.0698980005 <=
               exp (2 * (2 * (2 * (2 * (2 * (2 * (2 * (2 * x)))))))))
    by (apply (exp_double_lower _ 3.1733102591); [lra | exact H7 | lra]).
  replace 2.32 with (2 * (2 * (2 * (2 * (2 * (2 * (2 * (2 * x))))))))
    by (unfold x; lra).
  lra.
Qed.

(** [exp 2.29 < 10]: nine squarings from [1 - 2.29/512 <= exp (-2.29/512)]. *)
Lemma exp_2_29_upper : exp 2.29 < 10.
Proof.
  set (x := - (2.29 / 512)).
  assert (H0 : 0.995527343750 <= exp x)
    by (pose proof (exp_ineq1_le x); unfold x in *; lra).
  assert (H1 : 0.991074692153 <= exp (2 * x))
    by (apply (exp_double_lower _ 0.995527343750); [lra | exact H0 | lra]).
  assert (H2 : 0.982229045426 <= exp (2 * (2 * x)))
    by (apply (exp_double_lower _ 0.991074692153); [lra | exact H1 | lra]).
  assert (H3 : 0.964773897678 <= exp (2 * (2 * (2 * x))))
    by (apply (exp_double_lower _ 0.982229045426); [lra | exact H2 | lra]).
  assert (H4 : 0.930788673640 <= exp (2 * (2 * (2 * (2 * x)))))
    by (apply (exp_double_lower _ 0.964773897678); [lra | exact H3 | lra]).
  assert (H5 : 0.866367554976 <= exp (2 * (2 * (2 * (2 * (2 * x))))))
    by (apply (exp_double_lower _ 0.930788673640); [lra | exact H4 | lra]).
  assert (H6 : 0.750592740315 <= exp (2 * (2 * (2 * (2 * (2 * (2 * x)))))))
    by (apply (exp_double_lower _ 0.866367554976); [lra | exact H5 | lra]).
  assert (H7 : 0.563389461813 <=
               exp (2 * (2 * (2 * (2 * (2 * (2 * (2 * x))))))))
    by (apply (exp_double_lower _ 0.750592740315); [lra | exact H6 | lra]).
  assert (H8 : 0.317407685681 <=
               exp (2 * (2 * (2 * (2 * (2 * (2 * (2 * (2 * x)))))))))
    by (apply (exp_double_lower _ 0.563389461813); [lra | exact H7 | lra]).
  assert (H9 : 0.100747638929 <=
               exp (2 * (2 * (2 * (2 * (2 * (2 * (2 * (2 * (2 * x))))))))))
    by (apply (exp_double_lower _ 0.317407685681); [lra | exact H8 | lra]).
  replace (2 * (2 * (2 * (2 * (2 * (2 * (2 * (2 * (2 * x)))))))))
    with (Ropp 2.29) in H9 by (unfold x; lra).
  rewrite (exp_Ropp 2.29) in H9.
  pose proof (exp_pos 2.29) as Hpos.
  assert (Hinv : / exp 2.29 * exp 2.29 = 1) by (apply Rinv_l; lra).
  nra.
Qed.

Lemma ln_10_bounds : 2.29 < ln 10 < 2.32.
Proof.
  split.
  - rewrite <- (ln_exp 2.29). apply ln_increasing; [apply exp_pos |].
    exact exp_2_29_upper.
  - rewrite <- (ln_exp 2.32). apply ln_increasing; [lra |].
    exact exp_2_32_lower.
Qed.

Lemma exp_neg_11_2_upper : exp (Ropp 11.2) < 1 / 6554.
Proof.
  pose proof exp_11_2_lower as Hlow.
  rewrite exp_Ropp.
  assert (Hinv : / exp 11.2 < / 6554)
    by (apply Rinv_lt_contravar; [nra | exact Hlow]).
  lra.
Qed.

(** The argument of [math.log] for two non-zero 16-bit voltages. *)
Lemma log_argument_lower (vref vntc : Z) :
  (1 <= vref < 65536)%Z -> (1 <= vntc < 65536)%Z ->
  1 / 6554 < IZR vntc * 100000 / IZR vref / 10000.
Proof.
  intros [Hr1 Hr2] [Hn1 Hn2].
  apply IZR_le in Hr1, Hn1. apply IZR_lt in Hr2, Hn2.
  set (x := IZR vntc * 100000 / IZR vref / 10000).
  assert (Hx : x * IZR vref = IZR vntc * 10) by (unfold x; field; lra).
  nra.
Qed.

Lemma ln_argument_lower (vref vntc : Z) :
  (1 <= vref < 65536)%Z -> (1 <= vntc < 65536)%Z ->
  Ropp 11.2 < ln (IZR vntc * 100000 / IZR vref / 10000).
Proof.
  intros Hr Hn.
  pose proof (log_argument_lower vref vntc Hr Hn) as Hx.
  rewrite <- (ln_exp (Ropp 11.2)).
  apply ln_increasing; [apply exp_pos |].
  pose proof exp_neg_11_2_upper. lra.
Qed.

(** The formula, for two non-zero 16-bit voltages: no step raises. *)
Lemma ntc_temperature_formula (vref vntc : Z) (offset : R) :
  (1 <= vref < 65536)%Z -> (1 <= vntc < 65536)%Z ->
  ntc_temperature vref vntc offset =
  Ok (1 / (ln (IZR vntc * 100000 / IZR vref / 10000) / 3380 + 1 / 298.15)
      - 273.15 - offset).
Proof.
  intros Hr Hn.
  pose proof (log_argument_lower vref vntc Hr Hn) as Hx.
  pose proof (ln_argument_lower vref vntc Hr Hn) as Hl.
  unfold ntc_temperature, float_div, math_log, CCS811_REF_RESISTOR.
  destruct Hr as [Hr1 Hr2]. apply IZR_le in Hr1.
  destruct (Req_dec_T (IZR vref) 0) as [E | _]; [lra |].
  destruct (Rle_dec (IZR vntc * 100000 / IZR vref / 10000) 0) as [E | _];
    [lra |].
  replace (1 / (25 + 273.15)) with (1 / 298.15) by lra.
  destruct (Req_dec_T
              (ln (IZR vntc * 100000 / IZR vref / 10000) / 3380 + 1 / 298.15) 0)
    as [E | _]; [lra |].
  reflexivity.
Qed.

(** With [vntc = 0] the logarithm is taken of 0. *)
Lemma ntc_temperature_vntc_zero (vref : Z) (offset : R) :
  vref <> 0%Z -> ntc_temperature vref 0 offset = Raise ValueError.
Proof.
  intros Hr.
  unfold ntc_temperature, float_div, math_log.
  destruct (Req_dec_T (IZR vref) 0) as [E | _].
  - apply eq_IZR_R0 in E. contradiction.
  - destruct (Rle_dec (0 * IZR CCS811_REF_RESISTOR / IZR vref / 10000) 0)
      as [_ | Hn]; [reflexivity |].
    exfalso. apply Hn. unfold Rdiv. rewrite !Rmult_0_l. lra.
Qed.

(** The value at [vref = vntc = 1000] with no offset. *)
Lemma formula_1000_1000 :
  -26 < 1 / (ln (1000 * 100000 / 1000 / 10000) / 3380 + 1 / 298.15)
        - 273.15 - 0 < -25.
Proof.
  replace (1000 * 100000 / 1000 / 10000) with 10 by lra.
  pose proof ln_10_bounds as [Hlo Hhi].
  set (invT := ln 10 / 3380 + 1 / 298.15).
  assert (Ha : 0.0040315 < invT) by (unfold invT; lra).
  assert (Hb : invT < 0.0040405) by (unfold invT; lra).
  assert (HT : 1 / invT * invT = 1) by (field; lra).
  split; nra.
Qed.

Section Temperature.

Context {D : Type} `{I2CBus D}.

Lemma temperature_eq (self : CCS811 D) :
  temperature self =
  (ntc_temperature
     (be16 (fst (read_register x06 4 (i2c_device self))) 1)
     (be16 (fst (read_register x06 4 (i2c_device self))) 3)
     (temp_offset self),
   mkCCS811 (snd (read_register x06 4 (i2c_device self)))
     (_eCO2 self) (_TVOC self) (temp_offset self)).
Proof.
  unfold temperature, bind, on_bus. rewrite io_read_register_eq. reflexivity.
Qed.

(** C5, as the code has it: when both voltages read from the NTC register
    are non-zero, [temperature] returns
    [1 / (ln (rntc / 10000) / 3380 + 1 / 298.15) - 273.15 - temp_offset]
    with [rntc = vntc * 100000 / vref], a function of the two voltages and
    the offset alone; and for [vref = vntc = 1000] with offset 0, [rntc] is
    100000 and the temperature lies between -26 and -25 degrees. *)
Theorem temperature_formula (self : CCS811 D) :
  let buf := fst (read_register x06 4 (i2c_device self)) in
  let vref := be16 buf 1 in
  let vntc := be16 buf 3 in
  vref <> 0%Z -> vntc <> 0%Z ->
  fst (temperature self) =
    Ok (1 / (ln (IZR vntc * 100000 / IZR vref / 10000) / 3380 + 1 / 298.15)
        - 273.15 - temp_offset self) /\
  (vref = 1000%Z -> vntc = 1000%Z -> temp_offset self = 0 ->
   IZR vntc * 100000 / IZR vref = 100000 /\
   exists t, fst (temperature self) = Ok t /\ -26 < t < -25).
Proof.
  intros buf vref vntc Hr Hn.
  assert (Rr : (1 <= vref < 65536)%Z)
    by (pose proof (be16_range buf 1); unfold vref in *; lia).
  assert (Rn : (1 <= vntc < 65536)%Z)
    by (pose proof (be16_range buf 3); unfold vntc in *; lia).
  assert (E : fst (temperature self) =
              Ok (1 / (ln (IZR vntc * 100000 / IZR vref / 10000) / 3380
                       + 1 / 298.15) - 273.15 - temp_offset self)).
  { rewrite temperature_eq. cbn [fst]. fold buf. fold vref. fold vntc.
    apply ntc_temperature_formula; assumption. }
  split; [exact E |].
  intros Er En Eo. split.
  - rewrite Er, En. lra.
  - eexists. split; [exact E |].
    rewrite Er, En, Eo. exact formula_1000_1000.
Qed.

End Temperature.

End Thermistor.

(** * The claims on the simulated chip *)

Section Instances.

Import Sim.

(** C1, as the claim states it, fails: on a driver that holds 400 ppm and
    0 ppb, a refresh that finds data ready, reads eCO2 = 600 and TVOC = 50
    and then finds the error bit set raises, and the cache holds 600 and 50:
    the previous values are not kept. *)
Lemma update_data_error_overwrites_cache :
  fst (data_ready (i2c_device erring)) = Ok true /\
  fst (_update_data erring) = Raise (RuntimeError "Error:2") /\
  _eCO2 erring = Some 400 /\ _TVOC erring = Some 0 /\
  _eCO2 (snd (_update_data erring)) = Some 600 /\
  _TVOC (snd (_update_data erring)) = Some 50 /\
  _eCO2 (snd (_update_data erring)) <> _eCO2 erring /\
  _TVOC (snd (_update_data erring)) <> _TVOC erring.
Proof.
  repeat split; try reflexivity; vm_compute; discriminate.
Qed.

Lemma update_data_error_publishes_witness :
  fst (_update_data erring) = Raise (RuntimeError "Error:2") /\
  _eCO2 (snd (_update_data erring)) = Some 600 /\
  _TVOC (snd (_update_data erring)) = Some 50.
Proof.
  exact (update_data_error_publishes erring eq_refl eq_refl).
Defined.

(** C4, as the claim states it, fails: with [vref = 0] (and [vntc = 1000])
    what ends [temperature] is the interpreter's [ZeroDivisionError] out of
    the division, not an error the driver raises after a test of [vref]:
    it is no [RuntimeError], the one class the driver raises. *)
Lemma temperature_vref_zero_unguarded :
  be16 (fst (read_register x06 4 (i2c_device unpowered))) 1 = 0 /\
  be16 (fst (read_register x06 4 (i2c_device unpowered))) 3 = 1000 /\
  fst (temperature unpowered) = Raise ZeroDivisionError /\
  match fst (temperature unpowered) with
  | Raise e => driver_raised e = false
  | Ok _ => False
  end.
Proof.
  assert (E : fst (temperature unpowered) = Raise ZeroDivisionError).
  { rewrite temperature_eq. cbn [fst].
    change (be16 (fst (read_register x06 4 (i2c_device unpowered))) 1)
      with 0.
    unfold ntc_temperature, float_div.
    destruct (Req_dec_T (IZR 0) 0) as [_ | Hne]; [reflexivity |].
    exfalso. apply Hne. reflexivity. }
  split; [reflexivity |]. split; [reflexivity |].
  split; [exact E |]. rewrite E. reflexivity.
Qed.

Lemma temperature_vref_zero_witness :
  fst (temperature unpowered) = Raise ZeroDivisionError /\
  (forall t, fst (temperature unpowered) <> Ok t).
Proof.
  exact (temperature_vref_zero unpowered eq_refl).
Defined.

Lemma init_wrong_hw_id_witness :
  fst (__init__ wrong_id) =
    Raise (RuntimeError
      "Device ID returned is not correct! Please check your wiring.") /\
  log (snd (__init__ wrong_id)) = [EvWrite [x20] false; EvRead 1].
Proof.
  assert (Hid : buf_get (fst (read_register x20 1 wrong_id)) 1 <> 0x81)
    by (vm_compute; discriminate).
  destruct (init_wrong_hw_id wrong_id Hid) as (Hraise & _ & Hlog & _).
  split; [exact Hraise | exact Hlog].
Defined.

Lemma refresh_idle_repeat_witness :
  fst (repeat_call 3 TVOC idle_erring) = [Ok (Some 0); Ok (Some 0); Ok (Some 0)] /\
  fst (eCO2 (snd (repeat_call 3 TVOC idle_erring))) = Ok (Some 400).
Proof.
  assert (Hidle : forall k, (k < 3)%nat ->
            fst (data_ready (poll k (i2c_device idle_erring))) = Ok false).
  { intros k Hk. destruct k as [| [| [| k]]]; [reflexivity .. | lia]. }
  destruct (refresh_idle_repeat 3 idle_erring Hidle) as (Ht & He & _).
  split; [rewrite Ht; reflexivity | exact He].
Defined.

Lemma TVOC_idle_ignores_error_witness :
  fst (error (i2c_device idle_erring)) = Ok true /\
  fst (TVOC idle_erring) = Ok (Some 0) /\
  log (i2c_device (snd (TVOC idle_erring))) = [EvWrite [x00] false; EvRead 1].
Proof.
  assert (Hidle : fst (data_ready (i2c_device idle_erring)) = Ok false)
    by (vm_compute; reflexivity).
  destruct (TVOC_idle_ignores_error idle_erring Hidle) as (Hv & _ & _ & Hl).
  split; [reflexivity |]. split; [exact Hv | exact Hl].
Defined.

Lemma booted_reachable : reachable booted.
Proof.
  apply (reach_init measuring (snd (__init__ measuring))).
  vm_compute. reflexivity.
Qed.

Lemma cache_updates_as_pair_witness :
  (_eCO2 (run_op GetTVOC booted) = None /\
   _TVOC (run_op GetTVOC booted) = None) \/
  (exists e t, _eCO2 (run_op GetTVOC booted) = Some e /\
               _TVOC (run_op GetTVOC booted) = Some t).
Proof.
  exact (proj2 cache_updates_as_pair (run_op GetTVOC booted)
           (reach_op GetTVOC booted booted_reachable)).
Defined.

Local Open Scope R_scope.

(** C5, as the claim states it, fails twice.  With [vref = 1000] and
    [vntc = 0], a valid pair with [vref <> 0], [temperature] raises
    [ValueError] at [math.log(0.0)] and computes nothing; and with
    [vref = vntc = 1000] and no offset the value of the formula is below
    -25 degrees, not near +25. *)
Lemma temperature_claim_fails :
  be16 (fst (read_register x06 4 (i2c_device shorted))) 1 = 1000%Z /\
  be16 (fst (read_register x06 4 (i2c_device shorted))) 3 = 0%Z /\
  fst (temperature shorted) = Raise ValueError /\
  be16 (fst (read_register x06 4 (i2c_device warm))) 1 = 1000%Z /\
  be16 (fst (read_register x06 4 (i2c_device warm))) 3 = 1000%Z /\
  exists t, fst (temperature warm) = Ok t /\ t < -25.
Proof.
  split; [reflexivity |]. split; [reflexivity |]. split.
  - rewrite temperature_eq. cbn [fst].
    change (be16 (fst (read_register x06 4 (i2c_device shorted))) 1)
      with 1000%Z.
    change (be16 (fst (read_register x06 4 (i2c_device shorted))) 3)
      with 0%Z.
    apply ntc_temperature_vntc_zero. discriminate.
  - split; [reflexivity |]. split; [reflexivity |].
    rewrite temperature_eq. cbn [fst].
    change (be16 (fst (read_register x06 4 (i2c_device warm))) 1)
      with 1000%Z.
    change (be16 (fst (read_register x06 4 (i2c_device warm))) 3)
      with 1000%Z.
    rewrite ntc_temperature_formula by lia.
    eexists. split; [reflexivity |].
    change (temp_offset warm) with 0.
    apply formula_1000_1000.
Qed.

Lemma temperature_formula_witness :
  exists t, fst (temperature warm) = Ok t /\ -26 < t < -25.
Proof.
  assert (Hr : be16 (fst (read_register x06 4 (i2c_device warm))) 1 <> 0%Z)
    by (vm_compute; discriminate).
  assert (Hn : be16 (fst (read_register x06 4 (i2c_device warm))) 3 <> 0%Z)
    by (vm_compute; discriminate).
  destruct (temperature_formula warm Hr Hn) as [_ Hat].
  destruct (Hat eq_refl eq_refl eq_refl) as [_ Ht].
  exact Ht.
Defined.

End Instances.

(** * Further properties of the driver *)

(** ** Bit tests and byte ranges *)

Lemma mask_test_is_testbit (b bit : Z) :
  0 <= bit ->
  negb (Z.land b (Z.shiftl 1 bit) =? 0) = Z.testbit b bit.
Proof.
  intros Hbit. rewrite Z.shiftl_1_l.
  destruct (Z.testbit b bit) eqn:Eb.
  - destruct (Z.eqb_spec (Z.land b (2 ^ bit)) 0) as [E | _]; [| reflexivity].
    exfalso.
    assert (Ht : Z.testbit (Z.land b (2 ^ bit)) bit = true)
      by (rewrite Z.land_spec, Eb, Z.pow2_bits_true by exact Hbit; reflexivity).
    rewrite E, Z.bits_0 in Ht. discriminate.
  - assert (E : Z.land b (2 ^ bit) = 0).
    { apply Z.bits_inj'. intros n Hn.
      rewrite Z.land_spec, Z.bits_0, Z.pow2_bits_eqb by exact Hbit.
      destruct (Z.eqb_spec bit n) as [<- | _].
      - rewrite Eb. reflexivity.
      - apply andb_false_r. }
    rewrite E. reflexivity.
Qed.

Lemma byte_range_iff (z : Z) : 0 <= z < 256 <-> Z.land z 255 = z.
Proof.
  split; [apply land_255_byte |].
  intros E. change 255 with (Z.ones 8) in E.
  rewrite Z.land_ones in E by lia.
  rewrite <- E. apply Z.mod_pos_bound. reflexivity.
Qed.

Lemma land_in_byte (a m : Z) : 0 <= a < 256 -> 0 <= Z.land a m < 256.
Proof.
  intros Ha. apply byte_range_iff.
  rewrite <- Z.land_assoc, (Z.land_comm m 255), Z.land_assoc.
  rewrite land_255_byte by exact Ha. reflexivity.
Qed.

Lemma lor_in_byte (a b : Z) :
  0 <= a < 256 -> 0 <= b < 256 -> 0 <= Z.lor a b < 256.
Proof.
  intros Ha Hb. apply byte_range_iff.
  rewrite Z.land_lor_distr_l, !land_255_byte by assumption. reflexivity.
Qed.

Lemma byte_of_int_some (z : Z) :
  0 <= z < 256 -> exists b, byte_of_int z = Some b /\ byte_val b = z.
Proof.
  intros Hz. unfold byte_of_int.
  destruct (Z.leb_spec 0 z) as [_ | ?]; [| lia].
  destruct (Z.ltb_spec z 256) as [_ | ?]; [| lia].
  cbn [andb].
  destruct (Byte.of_N (Z.to_N z)) as [b |] eqn:E.
  - exists b. split; [reflexivity |].
    apply Byte.to_of_N in E. unfold byte_val. rewrite E. lia.
  - apply Byte.of_N_None_iff in E. lia.
Qed.

Lemma set_cell1_ok (buf : list byte) (z : Z) :
  0 <= z < 256 ->
  exists b, byte_val b = z /\
            set_cell1 buf z = Ok (nth 0 buf x00 :: b :: skipn 2 buf).
Proof.
  intros Hz. destruct (byte_of_int_some z Hz) as (b & E & Hb).
  exists b. split; [exact Hb |]. unfold set_cell1. rewrite E. reflexivity.
Qed.

(** ** Construction *)

Section Construction.

Context {D : Type} `{I2CBus D}.

Lemma RWBit_set_ok (reg : byte) (bit : Z) (v : bool) (i : I2CDevice D) :
  0 <= bit < 8 -> fst (RWBit_set reg bit v i) = Ok tt.
Proof.
  intros Hbit.
  assert (Hm : 0 <= Z.shiftl 1 bit < 256).
  { rewrite Z.shiftl_1_l. split; [apply Z.pow_nonneg; lia |].
    apply Z.lt_le_trans with (2 ^ 8); [| reflexivity].
    apply Z.pow_lt_mono_r; lia. }
  unfold RWBit_set, bind, of_res. rewrite io_read_register_eq.
  set (buf := fst (read_register reg 1 i)).
  pose proof (buf_get_range buf 1) as Hb.
  destruct v.
  - destruct (set_cell1_ok buf _ (lor_in_byte _ _ Hb Hm)) as (b & _ & E).
    rewrite E. reflexivity.
  - destruct (set_cell1_ok buf _ (land_in_byte _ (Z.lnot (Z.shiftl 1 bit)) Hb))
      as (b & _ & E).
    rewrite E. reflexivity.
Qed.

Lemma RWBits_set_ok (n : nat) (reg : byte) (low v : Z) (i : I2CDevice D) :
  0 <= bits_mask n low < 256 -> fst (RWBits_set n reg low v i) = Ok tt.
Proof.
  intros Hm. unfold RWBits_set, bind, of_res. rewrite io_read_register_eq.
  set (buf := fst (read_register reg 1 i)).
  pose proof (buf_get_range buf 1) as Hb.
  destruct (set_cell1_ok buf _ (lor_in_byte _ _ Hb Hm)) as (b1 & _ & E1).
  rewrite E1.
  set (buf1 := nth 0 buf x00 :: b1 :: skipn 2 buf).
  pose proof (buf_get_range buf1 1) as Hb1.
  destruct (set_cell1_ok buf1 _
              (land_in_byte _ (Z.lor (Z.shiftl v low) (Z.lnot (bits_mask n low)))
                 Hb1)) as (b2 & _ & E2).
  rewrite E2. reflexivity.
Qed.

(** [__init__], with its three checks spelled out on the bytes read. *)
Lemma init_eq (i : I2CDevice D) :
  let id := buf_get (fst (read_register x20 1 i)) 1 in
  let i1 := snd (read_register x20 1 i) in
  let i2 := snd (io_sleep (snd (io_write [xf4] 1 true i1))) in
  let status1 := buf_get (fst (read_register x00 1 i2)) 1 in
  let i3 := snd (read_register x00 1 i2) in
  let status2 := buf_get (fst (read_register x00 1 i3)) 1 in
  let i4 := snd (read_register x00 1 i3) in
  let i5 := snd (set_interrupt_enabled false i4) in
  let i6 := snd (set_drive_mode CCS811_DRIVE_MODE_1SEC i5) in
  __init__ i =
  if negb (id =? 0x81) then (Raise (RuntimeError wrong_device_msg), i1)
  else if Z.testbit status1 0 then (Raise (RuntimeError device_error_msg), i3)
  else if negb (Z.testbit status2 7)
       then (Raise (RuntimeError boot_failure_msg), i4)
  else (Ok (mkCCS811 i6 None None 0%R), i6).
Proof.
  intros id i1 i2 status1 i3 status2 i4 i5 i6.
  unfold __init__, bind. rewrite hw_id_eq. fold id. fold i1.
  change CCS811_HW_ID_CODE with 0x81.
  destruct (negb (id =? 0x81)); [reflexivity |].
  cbn [io_write io_sleep snd].
  change (mkI2C (dev (i2c_write [xf4] 1 true i1))
            (log (i2c_write [xf4] 1 true i1) ++ [EvSleep])) with i2.
  unfold error, fw_mode. rewrite Bit_get_eq.
  rewrite mask_test_is_testbit by lia.
  fold status1. fold i3.
  destruct (Z.testbit status1 0); [reflexivity |].
  rewrite Bit_get_eq, mask_test_is_testbit by lia.
  fold status2. fold i4.
  destruct (Z.testbit status2 7); [| reflexivity].
  cbn [negb].
  pose proof (RWBit_set_ok x01 3 false i4 ltac:(lia)) as E5.
  fold (set_interrupt_enabled false) in E5.
  destruct (set_interrupt_enabled false i4) as [r5 j5] eqn:S5.
  cbn [fst] in E5. subst r5.
  assert (Ej5 : j5 = i5) by reflexivity.
  pose proof (RWBits_set_ok 3 x01 4 CCS811_DRIVE_MODE_1SEC j5
                ltac:(change (bits_mask 3 4) with 112; lia)) as E6.
  fold (set_drive_mode CCS811_DRIVE_MODE_1SEC) in E6.
  destruct (set_drive_mode CCS811_DRIVE_MODE_1SEC j5) as [r6 j6] eqn:S6.
  cbn [fst] in E6. subst r6.
  assert (Ej6 : j6 = i6)
    by (unfold i6, i5; cbn [snd]; rewrite S6; reflexivity).
  rewrite Ej6. reflexivity.
Qed.

End Construction.

Section ConstructionOutcomes.

Context {D : Type} `{I2CBus D}.

Lemma app_start_log (i : I2CDevice D) :
  log (snd (io_sleep (snd (io_write [xf4] 1 true
                             (snd (read_register x20 1 i)))))) =
  log i ++ [EvWrite [x20] false; EvRead 1; EvWrite [xf4] true; EvSleep].
Proof.
  cbn [io_sleep io_write snd log i2c_write firstn].
  rewrite read_register_log, <- !app_assoc. reflexivity.
Qed.

(** X1: a chip with the right hardware id whose status has the error bit
    set after the application start makes [__init__] raise the
    device-error [RuntimeError]; by then the driver has read the id, sent
    0xF4, slept and read the status once, and nothing else. *)
Theorem init_error_bit_raises (i : I2CDevice D) :
  let i1 := snd (read_register x20 1 i) in
  let i2 := snd (io_sleep (snd (io_write [xf4] 1 true i1))) in
  buf_get (fst (read_register x20 1 i)) 1 = 0x81 ->
  Z.testbit (buf_get (fst (read_register x00 1 i2)) 1) 0 = true ->
  fst (__init__ i) = Raise (RuntimeError device_error_msg) /\
  log (snd (__init__ i)) =
    log i ++ [EvWrite [x20] false; EvRead 1; EvWrite [xf4] true; EvSleep;
              EvWrite [x00] false; EvRead 1].
Proof.
  intros i1 i2 Hid Herr. rewrite init_eq. cbv zeta.
  fold i1. fold i2. rewrite Hid, Herr. cbn [Z.eqb Pos.eqb negb fst snd].
  split; [reflexivity |].
  rewrite read_register_log. unfold i2, i1. rewrite app_start_log.
  rewrite <- app_assoc. reflexivity.
Qed.

(** X2: a chip with the right hardware id and no error whose status has
    bit 7 clear (the application did not start) makes [__init__] raise the
    boot-failure [RuntimeError]; the status register has been read twice,
    once per bit, and register 0x01 has not been touched. *)
Theorem init_boot_failure_raises (i : I2CDevice D) :
  let i1 := snd (read_register x20 1 i) in
  let i2 := snd (io_sleep (snd (io_write [xf4] 1 true i1))) in
  let i3 := snd (read_register x00 1 i2) in
  buf_get (fst (read_register x20 1 i)) 1 = 0x81 ->
  Z.testbit (buf_get (fst (read_register x00 1 i2)) 1) 0 = false ->
  Z.testbit (buf_get (fst (read_register x00 1 i3)) 1) 7 = false ->
  fst (__init__ i) = Raise (RuntimeError boot_failure_msg) /\
  log (snd (__init__ i)) =
    log i ++ [EvWrite [x20] false; EvRead 1; EvWrite [xf4] true; EvSleep;
              EvWrite [x00] false; EvRead 1; EvWrite [x00] false; EvRead 1].
Proof.
  intros i1 i2 i3 Hid Herr Hfw. rewrite init_eq. cbv zeta.
  fold i1. fold i2. fold i3. rewrite Hid, Herr, Hfw.
  cbn [Z.eqb Pos.eqb negb fst snd].
  split; [reflexivity |].
  rewrite read_register_log. unfold i3. rewrite read_register_log.
  unfold i2, i1. rewrite app_start_log.
  rewrite <- !app_assoc. reflexivity.
Qed.

(** X3: [__init__] yields an object exactly when the hardware id is 0x81,
    the first status read has bit 0 clear and the second has bit 7 set;
    the object then has both cached fields [None], offset 0.0, and holds
    the device as [__init__] left it. *)
Theorem init_succeeds_iff (i : I2CDevice D) :
  let i1 := snd (read_register x20 1 i) in
  let i2 := snd (io_sleep (snd (io_write [xf4] 1 true i1))) in
  let i3 := snd (read_register x00 1 i2) in
  ((exists self, fst (__init__ i) = Ok self) <->
   (buf_get (fst (read_register x20 1 i)) 1 = 0x81 /\
    Z.testbit (buf_get (fst (read_register x00 1 i2)) 1) 0 = false /\
    Z.testbit (buf_get (fst (read_register x00 1 i3)) 1) 7 = true)) /\
  (forall self, fst (__init__ i) = Ok self ->
     _eCO2 self = None /\ _TVOC self = None /\ temp_offset self = 0%R /\
     i2c_device self = snd (__init__ i)).
Proof.
  intros i1 i2 i3. rewrite init_eq. cbv zeta. fold i1. fold i2. fold i3.
  destruct (Z.eqb_spec (buf_get (fst (read_register x20 1 i)) 1) 129)
    as [Hid | Hid]; cbn [negb].
  - destruct (Z.testbit (buf_get (fst (read_register x00 1 i2)) 1) 0);
      cbn [fst snd].
    + split.
      * split; [intros [self E]; discriminate | intros (_ & E & _); discriminate].
      * intros self E. discriminate.
    + destruct (Z.testbit (buf_get (fst (read_register x00 1 i3)) 1) 7);
        cbn [negb fst snd].
      * split.
        -- split; [intros _; repeat split; assumption | intros _; eexists; reflexivity].
        -- intros self E. injection E as <-. repeat split.
      * split.
        -- split; [intros [self E]; discriminate | intros (_ & _ & E); discriminate].
        -- intros self E. discriminate.
  - cbn [fst snd]. split.
    + split; [intros [self E]; discriminate | intros (E & _); contradiction].
    + intros self E. discriminate.
Qed.

End ConstructionOutcomes.

(** ** Status and measurement reads *)

Section Reads.

Context {D : Type} `{I2CBus D}.

Lemma Bit_get_testbit (reg : byte) (bit : Z) (i : I2CDevice D) :
  0 <= bit ->
  Bit_get reg bit i =
  (Ok (Z.testbit (buf_get (fst (read_register reg 1 i)) 1) bit),
   snd (read_register reg 1 i)).
Proof.
  intros Hbit. rewrite Bit_get_eq, mask_test_is_testbit by exact Hbit.
  reflexivity.
Qed.

(** X4: the four status properties are bits 0, 3, 4 and 7 of the one byte
    the bus delivers for register 0x00; each costs one register read and
    never raises. *)
Theorem status_bits (i : I2CDevice D) :
  let status :=
    byte_val (nth 0 (fst (bus_readfrom 1 (bus_writeto [x00] false (dev i)))) x00) in
  let i' := snd (read_register x00 1 i) in
  error i = (Ok (Z.testbit status 0), i') /\
  data_ready i = (Ok (Z.testbit status 3), i') /\
  app_valid i = (Ok (Z.testbit status 4), i') /\
  fw_mode i = (Ok (Z.testbit status 7), i') /\
  log i' = log i ++ [EvWrite [x00] false; EvRead 1].
Proof.
  intros status i'.
  assert (E : buf_get (fst (read_register x00 1 i)) 1 = status)
    by (apply read_register_cells; lia).
  unfold error, data_ready, app_valid, fw_mode.
  rewrite !Bit_get_testbit by lia. rewrite E.
  repeat split. apply read_register_log.
Qed.

(** The refresh when data is ready and the error bit is clear. *)
Lemma update_data_fresh (self : CCS811 D) :
  let i1 := snd (data_ready (i2c_device self)) in
  let buf := fst (read_register x02 8 i1) in
  let i2 := snd (read_register x02 8 i1) in
  fst (data_ready (i2c_device self)) = Ok true ->
  fst (error i2) = Ok false ->
  _update_data self =
  (Ok tt, mkCCS811 (snd (error i2)) (Some (be16 buf 1)) (Some (be16 buf 3))
            (temp_offset self)).
Proof.
  intros i1 buf i2 Hr He.
  rewrite (update_data_ready self Hr). fold i1. fold i2. rewrite He.
  reflexivity.
Qed.

(** X5: when data is ready and the error bit is clear afterwards, [TVOC]
    returns [256 * d2 + d3] and a following [eCO2] returns [256 * d0 + d1],
    where [d0 .. d3] are the first four of the eight bytes read from
    register 0x02; both are between 0 and 65535; the refresh made three
    register reads (status, data, status) and wrote nothing else. *)
Theorem TVOC_fresh_measurement (self : CCS811 D) :
  let i1 := snd (data_ready (i2c_device self)) in
  let data := fst (bus_readfrom 8 (bus_writeto [x02] false (dev i1))) in
  let d := fun k => byte_val (nth k data x00) in
  let i2 := snd (read_register x02 8 i1) in
  fst (data_ready (i2c_device self)) = Ok true ->
  fst (error i2) = Ok false ->
  fst (TVOC self) = Ok (Some (256 * d 2%nat + d 3%nat)) /\
  fst (eCO2 (snd (TVOC self))) = Ok (Some (256 * d 0%nat + d 1%nat)) /\
  0 <= 256 * d 2%nat + d 3%nat < 65536 /\
  0 <= 256 * d 0%nat + d 1%nat < 65536 /\
  log (i2c_device (snd (TVOC self))) =
    log (i2c_device self) ++
    [EvWrite [x00] false; EvRead 1; EvWrite [x02] false; EvRead 8;
     EvWrite [x00] false; EvRead 1].
Proof.
  intros i1 data d i2 Hr He.
  rewrite TVOC_unfold, (update_data_fresh self Hr He).
  fold i1. fold i2. cbn [fst snd eCO2 _eCO2 _TVOC i2c_device].
  set (buf := fst (read_register x02 8 i1)).
  assert (E1 : be16 buf 1 = 256 * d 0%nat + d 1%nat).
  { rewrite be16_sum. unfold buf, d, data.
    rewrite !read_register_cells by lia. lia. }
  assert (E3 : be16 buf 3 = 256 * d 2%nat + d 3%nat).
  { rewrite be16_sum. unfold buf, d, data.
    rewrite !read_register_cells by lia. lia. }
  rewrite <- E1, <- E3.
  split; [reflexivity |]. split; [reflexivity |].
  split; [apply be16_range |]. split; [apply be16_range |].
  unfold error. rewrite Bit_get_log. unfold i2. rewrite read_register_log.
  unfold i1, data_ready. rewrite Bit_get_log.
  rewrite <- !app_assoc. reflexivity.
Qed.

(** X7: [error_code] returns the byte the bus delivers for register 0xE0,
    a number between 0 and 255; it never raises, costs one register read
    and leaves the cache and the offset alone. *)
Theorem error_code_reads_e0 (self : CCS811 D) :
  let i := i2c_device self in
  let code :=
    byte_val (nth 0 (fst (bus_readfrom 1 (bus_writeto [xe0] false (dev i)))) x00) in
  error_code self =
    (Ok code,
     mkCCS811 (snd (read_register xe0 1 i))
       (_eCO2 self) (_TVOC self) (temp_offset self)) /\
  0 <= code < 256 /\
  log (snd (read_register xe0 1 i)) = log i ++ [EvWrite [xe0] false; EvRead 1].
Proof.
  intros i code.
  assert (E : buf_get (fst (read_register xe0 1 i)) 1 = code)
    by (apply read_register_cells; lia).
  split.
  - unfold error_code, bind, on_bus. fold i.
    rewrite io_read_register_eq. unfold ret. rewrite E. reflexivity.
  - split; [apply byte_val_range | apply read_register_log].
Qed.

End Reads.

(** ** What touches the cache, and what touches the chip *)

Section Frames.

Context {D : Type} `{I2CBus D}.

Lemma on_bus_device {A : Type} (m : IO A) (self : CCS811 D) :
  i2c_device (snd (on_bus m self)) = snd (m (i2c_device self)).
Proof.
  unfold on_bus. destruct (m (i2c_device self)). reflexivity.
Qed.

Lemma run_op_keeps_cache (op : Op) (self : CCS811 D) :
  refreshes op = false ->
  _eCO2 (run_op op self) = _eCO2 self /\ _TVOC (run_op op self) = _TVOC self.
Proof.
  intros Hop.
  destruct op; try discriminate Hop; cbn [run_op]; unfold after;
    try apply on_bus_cache; try (split; reflexivity).
  - unfold error_code. apply bind_on_bus_cache. intros a s. split; reflexivity.
  - unfold temperature. apply bind_on_bus_cache. intros a s. split; reflexivity.
  - unfold set_interrupt_thresholds. apply write_buffer_cache.
Qed.

Lemma run_ops_keep_cache (ops : list Op) (self : CCS811 D) :
  forallb (fun op => negb (refreshes op)) ops = true ->
  _eCO2 (run_ops ops self) = _eCO2 self /\
  _TVOC (run_ops ops self) = _TVOC self.
Proof.
  revert self. induction ops as [| op ops IH]; intros self Hops.
  - split; reflexivity.
  - cbn [forallb] in Hops. apply andb_prop in Hops as [Hop Hrest].
    apply negb_true_iff in Hop.
    destruct (run_op_keeps_cache op self Hop) as [He Ht].
    destruct (IH (run_op op self) Hrest) as [He' Ht'].
    unfold run_ops in *. cbn [fold_left].
    rewrite He', Ht', He, Ht. split; reflexivity.
Qed.

(** X8: a session that neither reads [TVOC] nor calls [_update_data]
    leaves both cached fields as they were, whatever else it does (status
    reads, configuration writes, [temperature], [reset], even reads of
    [eCO2]); [eCO2] at its end returns the value cached at its start. *)
Theorem cache_frozen_without_refresh (ops : list Op) (self : CCS811 D) :
  forallb (fun op => negb (refreshes op)) ops = true ->
  _eCO2 (run_ops ops self) = _eCO2 self /\
  _TVOC (run_ops ops self) = _TVOC self /\
  fst (eCO2 (run_ops ops self)) = Ok (_eCO2 self).
Proof.
  intros Hops. destruct (run_ops_keep_cache ops self Hops) as [He Ht].
  repeat split; try assumption. cbn [eCO2 fst]. rewrite He. reflexivity.
Qed.

(** X9: on an object fresh from [__init__], [eCO2] returns [None] for as
    long as [TVOC] has not been read: reading [eCO2] alone never fetches a
    measurement. *)
Theorem eCO2_none_until_refresh (i : I2CDevice D) (self : CCS811 D)
    (ops : list Op) :
  fst (__init__ i) = Ok self ->
  forallb (fun op => negb (refreshes op)) ops = true ->
  fst (eCO2 (run_ops ops self)) = Ok None.
Proof.
  intros Hinit Hops.
  destruct (__init__ i) as [r i'] eqn:E. cbn [fst] in Hinit. subst r.
  destruct (init_cache i i' self E) as [He _].
  destruct (run_ops_keep_cache ops self Hops) as [He' _].
  cbn [eCO2 fst]. rewrite He', He. reflexivity.
Qed.

Lemma update_data_log (self : CCS811 D) :
  exists evs,
    log (i2c_device (snd (_update_data self))) =
      log (i2c_device self) ++ evs /\
    forallb read_traffic evs = true.
Proof.
  destruct (data_ready_bool (i2c_device self)) as [Hr | Hr].
  - rewrite (update_data_ready self Hr).
    set (i1 := snd (data_ready (i2c_device self))).
    set (i2 := snd (read_register x02 8 i1)).
    assert (L1 : log i1 =
                 log (i2c_device self) ++ [EvWrite [x00] false; EvRead 1])
      by apply Bit_get_log.
    assert (L2 : log i2 = log i1 ++ [EvWrite [x02] false; EvRead 8])
      by apply read_register_log.
    assert (L3 : log (snd (error i2)) =
                 log i2 ++ [EvWrite [x00] false; EvRead 1])
      by apply Bit_get_log.
    destruct (error_bool i2) as [He | He]; rewrite He; cbn [snd i2c_device].
    + rewrite read_register_log, L3, L2, L1, <- !app_assoc.
      eexists. split; reflexivity.
    + rewrite L3, L2, L1, <- !app_assoc. eexists. split; reflexivity.
  - rewrite (update_data_idle self Hr). cbn [snd i2c_device].
    unfold data_ready. rewrite Bit_get_log. eexists. split; reflexivity.
Qed.

(** X10: the reading operations (the getters of the descriptors, [TVOC],
    [eCO2], [temperature], [error_code], [_update_data]) only append to the
    bus log, and what they append is register-read traffic: one-byte
    writes of a register address without stop, and reads.  None of them
    writes a payload to the chip. *)
Theorem reads_never_write_payload (op : Op) (self : CCS811 D) :
  reads_only op = true ->
  exists evs,
    log (i2c_device (run_op op self)) = log (i2c_device self) ++ evs /\
    forallb read_traffic evs = true.
Proof.
  intros Hop.
  destruct op; try discriminate Hop; cbn [run_op]; unfold after;
    try (rewrite on_bus_device;
         first [ unfold error, data_ready, app_valid, fw_mode, int_thresh,
                   interrupt_enabled; rewrite Bit_get_log
               | unfold hw_id, drive_mode; rewrite Bits_get_eq;
                 cbn [snd]; rewrite read_register_log ];
         eexists; split; reflexivity).
  - unfold error_code, bind, on_bus. rewrite io_read_register_eq.
    cbn [ret snd i2c_device]. rewrite read_register_log.
    eexists. split; reflexivity.
  - apply update_data_log.
  - rewrite TVOC_after. apply update_data_log.
  - exists []. rewrite app_nil_r. split; reflexivity.
  - rewrite temperature_eq. cbn [snd i2c_device]. rewrite read_register_log.
    eexists. split; reflexivity.
Qed.

End Frames.

(** ** Configuration writes *)

Lemma bytearray_ok (l : list Z) :
  Forall (fun z => 0 <= z < 256) l ->
  exists bs, bytearray l = Ok bs /\ map byte_val bs = l.
Proof.
  induction 1 as [| z l Hz _ IH].
  - exists []. split; reflexivity.
  - destruct (byte_of_int_some z Hz) as (b & Eb & Hb).
    destruct IH as (bs & Ebs & Hbs).
    exists (b :: bs). cbn [bytearray map]. rewrite Eb, Ebs, Hb, Hbs.
    split; reflexivity.
Qed.

Lemma land_15_range (z : Z) : 0 <= Z.land z 0xF < 16.
Proof.
  change 0xF with (Z.ones 4). rewrite Z.land_ones by lia.
  apply Z.mod_pos_bound. reflexivity.
Qed.

Lemma land_f0f_high (z : Z) :
  Z.land (Z.shiftr (Z.land z 0xF0F) 8) 0xF = Z.land (Z.shiftr z 8) 0xF.
Proof.
  rewrite Z.shiftr_land. change (Z.shiftr 0xF0F 8) with 0xF.
  rewrite <- Z.land_assoc. reflexivity.
Qed.

Lemma land_f0f_low (z : Z) : Z.land (Z.land z 0xF0F) 0xF = Z.land z 0xF.
Proof.
  rewrite <- Z.land_assoc. reflexivity.
Qed.

Section Writes.

Context {D : Type} `{I2CBus D}.

(** X11: [reset] never raises and sends the one write [FF 11 E5 72 8A];
    it clears nothing in the object: the cached fields and the offset are
    kept, so [eCO2] after a reset still returns the value measured
    before it. *)
Theorem reset_keeps_cache (self : CCS811 D) :
  fst (reset self) = Ok tt /\
  log (i2c_device (snd (reset self))) =
    log (i2c_device self) ++ [EvWrite [xff; x11; xe5; x72; x8a] true] /\
  _eCO2 (snd (reset self)) = _eCO2 self /\
  _TVOC (snd (reset self)) = _TVOC self /\
  temp_offset (snd (reset self)) = temp_offset self /\
  fst (eCO2 (snd (reset self))) = Ok (_eCO2 self).
Proof.
  repeat split.
Qed.

(** X12: for every pair of boundaries, of any size or sign, and every
    hysteresis between 0 and 255, [set_interrupt_thresholds] does not
    raise and sends one six-byte write; its four boundary bytes are
    [(b >> 8) & 0xF] and [b & 0xF], each below 16, and the last byte is the
    hysteresis.  The cache is untouched. *)
Theorem thresholds_write_nibbles (low_med med_high hysteresis : Z)
    (self : CCS811 D) :
  0 <= hysteresis < 256 ->
  exists payload,
    fst (set_interrupt_thresholds low_med med_high hysteresis self) = Ok tt /\
    log (i2c_device
           (snd (set_interrupt_thresholds low_med med_high hysteresis self))) =
      log (i2c_device self) ++ [EvWrite payload true] /\
    map byte_val payload =
      [0x10; Z.land (Z.shiftr low_med 8) 0xF; Z.land low_med 0xF;
       Z.land (Z.shiftr med_high 8) 0xF; Z.land med_high 0xF; hysteresis] /\
    Forall (fun z => 0 <= z < 16)
      [Z.land (Z.shiftr low_med 8) 0xF; Z.land low_med 0xF;
       Z.land (Z.shiftr med_high 8) 0xF; Z.land med_high 0xF] /\
    _eCO2 (snd (set_interrupt_thresholds low_med med_high hysteresis self)) =
      _eCO2 self /\
    _TVOC (snd (set_interrupt_thresholds low_med med_high hysteresis self)) =
      _TVOC self.
Proof.
  intros Hh.
  pose proof (land_15_range (Z.shiftr low_med 8)) as H1.
  pose proof (land_15_range low_med) as H2.
  pose proof (land_15_range (Z.shiftr med_high 8)) as H3.
  pose proof (land_15_range med_high) as H4.
  destruct (bytearray_ok
              [CCS811_THRESHOLDS; Z.land (Z.shiftr low_med 8) 0xF;
               Z.land low_med 0xF; Z.land (Z.shiftr med_high 8) 0xF;
               Z.land med_high 0xF; hysteresis]) as (payload & E & Hp).
  { unfold CCS811_THRESHOLDS. repeat constructor; lia. }
  exists payload.
  unfold set_interrupt_thresholds, bind, of_res. rewrite E.
  cbn [on_bus io_write_all fst snd i2c_device _eCO2 _TVOC].
  split; [reflexivity |]. split.
  - unfold i2c_write_all, i2c_write. cbn [log]. rewrite firstn_all. reflexivity.
  - split; [exact Hp |]. split; [| split; reflexivity].
    repeat constructor; lia.
Qed.

(** X13: only bits 0-3 and 8-11 of a boundary reach the chip: replacing a
    boundary [b] by [b & 0xF0F] changes nothing in what
    [set_interrupt_thresholds] does. *)
Theorem thresholds_depend_on_two_nibbles (low_med med_high hysteresis : Z)
    (self : CCS811 D) :
  set_interrupt_thresholds (Z.land low_med 0xF0F) (Z.land med_high 0xF0F)
    hysteresis self =
  set_interrupt_thresholds low_med med_high hysteresis self.
Proof.
  unfold set_interrupt_thresholds.
  rewrite !land_f0f_high, !land_f0f_low. reflexivity.
Qed.

(** [set_environmental_data] never reaches the bus: for every humidity
    and temperature, int or float, it raises [TypeError] at
    [math.fmod(temperature)] and leaves the object and the log exactly as
    they were. *)
Lemma environmental_data_never_written (humidity temperature : PyNum)
    (self : CCS811 D) :
  set_environmental_data humidity temperature self = (Raise TypeError, self).
Proof.
  reflexivity.
Qed.

End Writes.

(** ** More on the thermistor temperature *)

Section ThermistorProperties.

Local Open Scope R_scope.

Lemma inverse_temperature_pos (vref vntc : Z) :
  (1 <= vref < 65536)%Z -> (1 <= vntc < 65536)%Z ->
  0 < ln (IZR vntc * 100000 / IZR vref / 10000) / 3380 + 1 / 298.15.
Proof.
  intros Hr Hn. pose proof (ln_argument_lower vref vntc Hr Hn). lra.
Qed.

Lemma log_argument_eq (vref vntc : Z) :
  (1 <= vref)%Z ->
  IZR vntc * 100000 / IZR vref / 10000 = 10 * IZR vntc / IZR vref.
Proof.
  intros Hr. apply IZR_le in Hr. field. lra.
Qed.

Lemma ntc_temperature_vref_zero (vntc : Z) (offset : R) :
  ntc_temperature 0 vntc offset = Raise ZeroDivisionError.
Proof.
  unfold ntc_temperature, float_div.
  destruct (Req_dec_T (IZR 0) 0) as [_ | Hne]; [reflexivity |].
  exfalso. apply Hne. reflexivity.
Qed.

(** X18: the computed temperature falls when the thermistor voltage rises
    and rises when the reference voltage rises: for non-zero 16-bit
    voltages and a fixed offset, [vntc1 < vntc2] gives a strictly lower
    result for [vntc2], and [vref1 < vref2] a strictly higher result for
    [vref2]. *)
Theorem temperature_monotone (offset : R) :
  (forall vref v1 v2 : Z,
     (1 <= vref < 65536)%Z -> (1 <= v1)%Z -> (v1 < v2)%Z -> (v2 < 65536)%Z ->
     exists t1 t2,
       ntc_temperature vref v1 offset = Ok t1 /\
       ntc_temperature vref v2 offset = Ok t2 /\ t2 < t1) /\
  (forall vntc r1 r2 : Z,
     (1 <= vntc < 65536)%Z -> (1 <= r1)%Z -> (r1 < r2)%Z -> (r2 < 65536)%Z ->
     exists t1 t2,
       ntc_temperature r1 vntc offset = Ok t1 /\
       ntc_temperature r2 vntc offset = Ok t2 /\ t1 < t2).
Proof.
  split.
  - intros vref v1 v2 Hr H1 H12 H2.
    assert (R1 : (1 <= v1 < 65536)%Z) by lia.
    assert (R2 : (1 <= v2 < 65536)%Z) by lia.
    rewrite (ntc_temperature_formula vref v1 offset Hr R1).
    rewrite (ntc_temperature_formula vref v2 offset Hr R2).
    eexists. eexists. split; [reflexivity |]. split; [reflexivity |].
    pose proof (inverse_temperature_pos vref v1 Hr R1) as P1.
    pose proof (inverse_temperature_pos vref v2 Hr R2) as P2.
    pose proof (log_argument_lower vref v1 Hr R1) as L1.
    assert (Hx : IZR v1 * 100000 / IZR vref / 10000 <
                 IZR v2 * 100000 / IZR vref / 10000).
    { rewrite !log_argument_eq by lia.
      destruct Hr as [Hr1 _]. apply IZR_le in Hr1. apply IZR_lt in H12.
      unfold Rdiv. apply Rmult_lt_compat_r; [apply Rinv_0_lt_compat; lra |].
      lra. }
    assert (Hl : ln (IZR v1 * 100000 / IZR vref / 10000) <
                 ln (IZR v2 * 100000 / IZR vref / 10000))
      by (apply ln_increasing; lra).
    set (a := ln (IZR v1 * 100000 / IZR vref / 10000) / 3380 + 1 / 298.15) in *.
    set (b := ln (IZR v2 * 100000 / IZR vref / 10000) / 3380 + 1 / 298.15) in *.
    assert (Hab : a < b) by (unfold a, b; lra).
    assert (Hinv : / b < / a) by (apply Rinv_lt_contravar; [nra | exact Hab]).
    unfold Rdiv. lra.
  - intros vntc r1 r2 Hn H1 H12 H2.
    assert (R1 : (1 <= r1 < 65536)%Z) by lia.
    assert (R2 : (1 <= r2 < 65536)%Z) by lia.
    rewrite (ntc_temperature_formula r1 vntc offset R1 Hn).
    rewrite (ntc_temperature_formula r2 vntc offset R2 Hn).
    eexists. eexists. split; [reflexivity |]. split; [reflexivity |].
    pose proof (inverse_temperature_pos r1 vntc R1 Hn) as P1.
    pose proof (inverse_temperature_pos r2 vntc R2 Hn) as P2.
    pose proof (log_argument_lower r2 vntc R2 Hn) as L2.
    assert (Hx : IZR vntc * 100000 / IZR r2 / 10000 <
                 IZR vntc * 100000 / IZR r1 / 10000).
    { rewrite !log_argument_eq by lia.
      destruct Hn as [Hn1 _]. apply IZR_le in Hn1.
      apply IZR_le in H1. apply IZR_lt in H12.
      assert (Hi : / IZR r2 < / IZR r1)
        by (apply Rinv_lt_contravar; [nra | exact H12]).
      unfold Rdiv. apply Rmult_lt_compat_l; [lra | exact Hi]. }
    assert (Hl : ln (IZR vntc * 100000 / IZR r2 / 10000) <
                 ln (IZR vntc * 100000 / IZR r1 / 10000))
      by (apply ln_increasing; lra).
    set (a := ln (IZR vntc * 100000 / IZR r1 / 10000) / 3380 + 1 / 298.15) in *.
    set (b := ln (IZR vntc * 100000 / IZR r2 / 10000) / 3380 + 1 / 298.15) in *.
    assert (Hab : b < a) by (unfold a, b; lra).
    assert (Hinv : / a < / b) by (apply Rinv_lt_contravar; [nra | exact Hab]).
    unfold Rdiv. lra.
Qed.

Lemma ntc_temperature_nominal (vref vntc : Z) (offset : R) :
  vref = (10 * vntc)%Z -> (1 <= vntc)%Z -> (vref < 65536)%Z ->
  ntc_temperature vref vntc offset = Ok (25 - offset).
Proof.
  intros Hr Hn Hlt.
  rewrite ntc_temperature_formula by lia.
  assert (Hv : 1 <= IZR vntc) by (apply IZR_le; lia).
  replace (IZR vntc * 100000 / IZR vref / 10000) with 1
    by (rewrite Hr, mult_IZR; field; lra).
  rewrite ln_1. f_equal.
  replace (0 / 3380 + 1 / 298.15) with (/ 298.15) by lra.
  unfold Rdiv. rewrite Rinv_inv. lra.
Qed.

Section OnTheBus.

Context {D : Type} `{I2CBus D}.

(** X14: [temperature], whether it returns or raises, makes exactly one
    register read (four bytes of register 0x06), writes nothing else, and
    leaves the cached measurement and the offset as they were. *)
Theorem temperature_frame (self : CCS811 D) :
  log (i2c_device (snd (temperature self))) =
    log (i2c_device self) ++ [EvWrite [x06] false; EvRead 4] /\
  _eCO2 (snd (temperature self)) = _eCO2 self /\
  _TVOC (snd (temperature self)) = _TVOC self /\
  temp_offset (snd (temperature self)) = temp_offset self.
Proof.
  rewrite temperature_eq. cbn [snd i2c_device _eCO2 _TVOC temp_offset].
  repeat split. apply read_register_log.
Qed.

(** X15: [temperature] returns a number exactly when both voltages read
    are non-zero; with [vref <> 0] and [vntc = 0] it raises [ValueError]
    (the logarithm of 0.0). *)
Theorem temperature_returns_iff (self : CCS811 D) :
  let buf := fst (read_register x06 4 (i2c_device self)) in
  let vref := be16 buf 1 in
  let vntc := be16 buf 3 in
  ((exists t, fst (temperature self) = Ok t) <->
   (vref <> 0%Z /\ vntc <> 0%Z)) /\
  (vref <> 0%Z -> vntc = 0%Z -> fst (temperature self) = Raise ValueError).
Proof.
  intros buf vref vntc. rewrite temperature_eq. cbn [fst].
  fold buf. fold vref. fold vntc.
  pose proof (be16_range buf 1) as Rr. fold vref in Rr.
  pose proof (be16_range buf 3) as Rn. fold vntc in Rn.
  split.
  - split.
    + intros [t E].
      destruct (Z.eq_dec vref 0) as [Er | Er].
      * rewrite Er, ntc_temperature_vref_zero in E. discriminate.
      * split; [exact Er |]. intros En.
        rewrite En, ntc_temperature_vntc_zero in E by exact Er. discriminate.
    + intros [Er En].
      rewrite ntc_temperature_formula by lia. eexists. reflexivity.
  - intros Er En. rewrite En. apply ntc_temperature_vntc_zero. exact Er.
Qed.

(** X16: the offset is subtracted last and plays no other part: if the
    temperature read with offset 0.0 is [t], the one read with
    [temp_offset = o] on the same chip is [t - o]. *)
Theorem temperature_offset_shift (self : CCS811 D) (o t : R) :
  fst (temperature (run_op (SetTempOffset 0) self)) = Ok t ->
  fst (temperature (run_op (SetTempOffset o) self)) = Ok (t - o).
Proof.
  rewrite !temperature_eq.
  cbn [fst run_op i2c_device temp_offset].
  unfold ntc_temperature.
  destruct (float_div _ _) as [rntc | e]; [| discriminate].
  destruct (math_log _) as [l | e]; [| discriminate].
  destruct (float_div 1 _) as [k | e]; [| discriminate].
  intros E. injection E as E. f_equal. lra.
Qed.

(** X17: at the nominal resistance the result is exact: whenever
    [vref = 10 * vntc] with [vntc <> 0] (so that [rntc = 10000]),
    [temperature] returns [25 - temp_offset]. *)
Theorem temperature_nominal (self : CCS811 D) :
  let buf := fst (read_register x06 4 (i2c_device self)) in
  be16 buf 1 = (10 * be16 buf 3)%Z -> be16 buf 3 <> 0%Z ->
  fst (temperature self) = Ok (25 - temp_offset self).
Proof.
  intros buf Hr Hn. rewrite temperature_eq. cbn [fst]. fold buf.
  pose proof (be16_range buf 1) as Rr.
  pose proof (be16_range buf 3) as Rn.
  apply ntc_temperature_nominal; [exact Hr | lia | lia].
Qed.

End OnTheBus.

End ThermistorProperties.

(** ** The two-byte parse *)

(** X19: the big-endian parse [(buf[i] << 8) | buf[i+1]] loses nothing:
    the high byte is the value shifted right by 8, the low byte is the
    value masked with 0xFF, and the value is [256 * high + low]. *)
Theorem be16_lossless (buf : list byte) (i : nat) :
  Z.shiftr (be16 buf i) 8 = buf_get buf i /\
  Z.land (be16 buf i) 0xFF = buf_get buf (S i) /\
  be16 buf i = 256 * buf_get buf i + buf_get buf (S i).
Proof.
  pose proof (buf_get_range buf i) as Hh.
  pose proof (buf_get_range buf (S i)) as Hl.
  rewrite be16_sum. split; [| split; [| lia]].
  - rewrite Z.shiftr_div_pow2 by lia. change (2 ^ 8) with 256.
    rewrite Z.div_add_l by lia. rewrite Z.div_small by exact Hl. lia.
  - change 0xFF with (Z.ones 8). rewrite Z.land_ones by lia.
    change (2 ^ 8) with 256.
    rewrite Z.add_comm, Z.mod_add by lia. apply Z.mod_small. exact Hl.
Qed.

(** * The further properties on the simulated chip *)

Section MoreInstances.

Import Sim.

Lemma byte_val_byte_of_Z (z : Z) : byte_val (byte_of_Z z) = z mod 256.
Proof.
  pose proof (Z.mod_pos_bound z 256 ltac:(lia)) as Hm.
  unfold byte_of_Z.
  destruct (Byte.of_N (Z.to_N (z mod 256))) as [b |] eqn:E.
  - apply Byte.to_of_N in E. unfold byte_val. rewrite E. lia.
  - apply Byte.of_N_None_iff in E. lia.
Qed.

Lemma split_16 (v : Z) :
  0 <= v < 65536 -> (v / 256) mod 256 * 256 + v mod 256 = v.
Proof.
  intros Hv.
  assert (Hq : 0 <= v / 256 < 256).
  { split; [apply Z.div_pos; lia | apply Z.div_lt_upper_bound; lia]. }
  rewrite (Z.mod_small (v / 256)) by exact Hq.
  pose proof (Z.div_mod v 256 ltac:(lia)). lia.
Qed.

(** X6: the driver hands on whatever the chip reports: for every pair of
    16-bit values [(e, t)] waiting in register 0x02 of a chip with no
    error, [TVOC] returns [t] and [eCO2] then returns [e].  Nothing is
    clipped to the 400 to 8192 ppm the docstring of [eCO2] speaks of. *)
Theorem measurement_not_clipped (e t : Z) :
  0 <= e < 65536 -> 0 <= t < 65536 ->
  fst (TVOC (reporting e t)) = Ok (Some t) /\
  fst (eCO2 (snd (TVOC (reporting e t)))) = Ok (Some e).
Proof.
  intros He Ht.
  assert (Hr : fst (data_ready (i2c_device (reporting e t))) = Ok true)
    by reflexivity.
  assert (Hn : fst (error (snd (read_register x02 8
                 (snd (data_ready (i2c_device (reporting e t))))))) = Ok false)
    by reflexivity.
  rewrite TVOC_unfold, (update_data_fresh (reporting e t) Hr Hn).
  cbn [fst snd eCO2 _eCO2 _TVOC].
  rewrite !be16_sum.
  change (buf_get (fst (read_register x02 8
            (snd (data_ready (i2c_device (reporting e t)))))) 1)
    with (byte_val (byte_of_Z (e / 256))).
  change (buf_get (fst (read_register x02 8
            (snd (data_ready (i2c_device (reporting e t)))))) 2)
    with (byte_val (byte_of_Z e)).
  change (buf_get (fst (read_register x02 8
            (snd (data_ready (i2c_device (reporting e t)))))) 3)
    with (byte_val (byte_of_Z (t / 256))).
  change (buf_get (fst (read_register x02 8
            (snd (data_ready (i2c_device (reporting e t)))))) 4)
    with (byte_val (byte_of_Z t)).
  rewrite !byte_val_byte_of_Z, !split_16 by assumption.
  split; reflexivity.
Qed.

End MoreInstances.

Section MoreWitnesses.

Import Sim.

Lemma init_error_bit_raises_witness :
  fst (__init__ faulty) = Raise (RuntimeError device_error_msg) /\
  log (snd (__init__ faulty)) =
    [EvWrite [x20] false; EvRead 1; EvWrite [xf4] true; EvSleep;
     EvWrite [x00] false; EvRead 1].
Proof.
  exact (init_error_bit_raises faulty eq_refl eq_refl).
Defined.

Lemma init_boot_failure_raises_witness :
  fst (__init__ bootloader) = Raise (RuntimeError boot_failure_msg) /\
  log (snd (__init__ bootloader)) =
    [EvWrite [x20] false; EvRead 1; EvWrite [xf4] true; EvSleep;
     EvWrite [x00] false; EvRead 1; EvWrite [x00] false; EvRead 1].
Proof.
  exact (init_boot_failure_raises bootloader eq_refl eq_refl eq_refl).
Defined.

Lemma init_succeeds_iff_witness :
  (exists self, fst (__init__ measuring) = Ok self) /\
  _eCO2 booted = None /\ _TVOC booted = None /\
  i2c_device booted = snd (__init__ measuring).
Proof.
  destruct (init_succeeds_iff measuring) as [Hiff Hobj].
  split.
  - apply Hiff. repeat split; vm_compute; reflexivity.
  - assert (E : fst (__init__ measuring) = Ok booted)
      by (vm_compute; reflexivity).
    destruct (Hobj booted E) as (He & Ht & _ & Hd).
    repeat split; assumption.
Defined.

Lemma TVOC_fresh_measurement_witness :
  fst (TVOC booted) = Ok (Some 50) /\
  fst (eCO2 (snd (TVOC booted))) = Ok (Some 600).
Proof.
  assert (Hr : fst (data_ready (i2c_device booted)) = Ok true)
    by (vm_compute; reflexivity).
  assert (Hn : fst (error (snd (read_register x02 8
                 (snd (data_ready (i2c_device booted)))))) = Ok false)
    by (vm_compute; reflexivity).
  destruct (TVOC_fresh_measurement booted Hr Hn) as (Ht & He & _).
  split; [exact Ht | exact He].
Defined.

Lemma measurement_not_clipped_witness :
  fst (TVOC (reporting 65535 0)) = Ok (Some 0) /\
  fst (eCO2 (snd (TVOC (reporting 65535 0)))) = Ok (Some 65535).
Proof.
  apply (measurement_not_clipped 65535 0); lia.
Defined.

Lemma cache_frozen_without_refresh_witness :
  _eCO2 (run_ops [GetECO2; CallReset; GetTemperature; GetErrorCode] erring) =
    Some 400 /\
  _TVOC (run_ops [GetECO2; CallReset; GetTemperature; GetErrorCode] erring) =
    Some 0.
Proof.
  destruct (cache_frozen_without_refresh
              [GetECO2; CallReset; GetTemperature; GetErrorCode] erring
              eq_refl) as (He & Ht & _).
  split; [exact He | exact Ht].
Defined.

Lemma eCO2_none_until_refresh_witness :
  fst (eCO2 (run_ops [GetECO2; GetDataReady; GetECO2] booted)) = Ok None.
Proof.
  assert (E : fst (__init__ measuring) = Ok booted)
    by (vm_compute; reflexivity).
  exact (eCO2_none_until_refresh measuring booted
           [GetECO2; GetDataReady; GetECO2] E eq_refl).
Defined.

Lemma reads_never_write_payload_witness :
  exists evs,
    log (i2c_device (run_op GetTVOC erring)) =
      log (i2c_device erring) ++ evs /\
    forallb read_traffic evs = true.
Proof.
  exact (reads_never_write_payload GetTVOC erring eq_refl).
Defined.

Lemma thresholds_write_nibbles_witness :
  exists payload,
    log (i2c_device (snd (set_interrupt_thresholds 1000 2000 50 warm))) =
      [EvWrite payload true] /\
    map byte_val payload = [16; 3; 8; 7; 0; 50].
Proof.
  destruct (thresholds_write_nibbles 1000 2000 50 warm ltac:(lia))
    as (payload & _ & Hlog & Hp & _).
  exists payload. split; [exact Hlog | exact Hp].
Defined.

Local Open Scope R_scope.

Lemma temperature_returns_iff_witness :
  (exists t, fst (temperature warm) = Ok t) /\
  fst (temperature shorted) = Raise ValueError.
Proof.
  split.
  - destruct (temperature_returns_iff warm) as [Hiff _].
    apply Hiff. split; vm_compute; discriminate.
  - destruct (temperature_returns_iff shorted) as [_ Hval].
    apply Hval; [vm_compute; discriminate | vm_compute; reflexivity].
Defined.

Lemma nominal_reads_25 :
  fst (temperature (run_op (SetTempOffset 0) nominal)) = Ok (25 - 0).
Proof.
  rewrite temperature_eq. cbn [fst run_op i2c_device temp_offset].
  change (be16 (fst (read_register x06 4 (i2c_device nominal))) 1)
    with 1000%Z.
  change (be16 (fst (read_register x06 4 (i2c_device nominal))) 3)
    with 100%Z.
  apply ntc_temperature_nominal; lia.
Qed.

Lemma temperature_offset_shift_witness :
  fst (temperature (run_op (SetTempOffset 1.5) nominal)) = Ok (25 - 0 - 1.5).
Proof.
  exact (temperature_offset_shift nominal 1.5 (25 - 0) nominal_reads_25).
Defined.

Lemma temperature_nominal_witness :
  fst (temperature nominal) = Ok (25 - temp_offset nominal).
Proof.
  apply (temperature_nominal nominal).
  - vm_compute. reflexivity.
  - vm_compute. discriminate.
Defined.

Lemma temperature_monotone_witness :
  exists t1 t2,
    ntc_temperature 1000 100 0 = Ok t1 /\
    ntc_temperature 1000 1000 0 = Ok t2 /\ t2 < t1.
Proof.
  apply (proj1 (temperature_monotone 0) 1000%Z 100%Z 1000%Z); lia.
Defined.

End MoreWitnesses.
